(** * Query-intent router and aggregation engine of [backend/main.py]

    A shallow embedding of [parse_last_quarter] and [route_question] and
    the properties of the natural-language specification that concern
    them.

    Modelling conventions.
    - A Python [str] is a [string]; a character [c : ascii] stands for
      the code point of the same number (U+0000 .. U+00FF).  On that
      range [str.lower] keeps the length and stays in the range.
    - A numeric amount is an exact rational [Q]: sums are exact and
      rounding to two decimals is round-half-to-even.  The columns of
      the program are [float64] or [int64]; the two arithmetics agree
      with this one where every value, partial sum and product by 100
      is a whole number below 2^53 ([exact_amounts] below); elsewhere
      it idealises them.  The properties that compare sums (the series
      of a chart with the total, one order of the rows with another)
      are stated for such amounts only.
    - A Python exception is a value [Raise e] of the result type
      [PyResult]; [date(y, m, d)] raises [ValueError] outside the
      proleptic Gregorian range of [datetime].
    - The DataFrame is a list of rows in file order, its [date] column
      holding timestamps; [groupby], [sort_values] and [resample] are
      written out as list functions with the behaviour pandas documents
      for them.  The column [rvp] is the region owner of the
      specification.  The frame read from a file without any data row
      is different: its [date] column holds no timestamps, and
      [route_question_loaded] says what the router does with it.
    - [get_df()] and [date.today()] read the process's cache and clock;
      here the snapshot and today's date are arguments. *)

From Stdlib Require Import ZArith QArith Qround Lia List Bool Ascii String.
From Stdlib Require Import DecimalString Sorted Permutation Qabs.
Import ListNotations.

Local Open Scope string_scope.
Local Open Scope Z_scope.

(* ================================================================== *)
(** ** Exceptions *)

Inductive exn : Type :=
| ValueError
| KeyError
| TypeError
| AttributeError.

Inductive PyResult (A : Type) : Type :=
| Ok (a : A)
| Raise (e : exn).

Arguments Ok {A} a.
Arguments Raise {A} e.

Definition bind {A B : Type} (m : PyResult A) (k : A -> PyResult B)
  : PyResult B :=
  match m with
  | Ok a => k a
  | Raise e => Raise e
  end.

Notation "x <- m ;; k" := (bind m (fun x => k))
  (at level 61, m at next level, right associativity).

(* ================================================================== *)
(** ** Python strings *)

Module Str.

Definition code (c : ascii) : N := N_of_ascii c.

Definition between (lo hi : N) (c : ascii) : bool :=
  ((lo <=? code c) && (code c <=? hi))%N.

Definition is_ascii_upper (c : ascii) : bool := between 65 90 c.
Definition is_ascii_lower (c : ascii) : bool := between 97 122 c.

(** [[a-zA-Z]] *)
Definition is_ascii_alpha (c : ascii) : bool :=
  is_ascii_lower c || is_ascii_upper c.

(** [\s] of [re] on a [str] pattern: the Unicode white space below
    U+0100. *)
Definition isspace (c : ascii) : bool :=
  between 9 13 c || between 28 32 c
  || (code c =? 133)%N || (code c =? 160)%N.

(** [str.lower] on one code point: A-Z, and U+00C0 .. U+00DE without
    the multiplication sign U+00D7. *)
Definition lower_char (c : ascii) : ascii :=
  if is_ascii_upper c || (between 192 222 c && negb (code c =? 215)%N)
  then ascii_of_N (code c + 32)
  else c.

Definition upper_char (c : ascii) : ascii :=
  if is_ascii_lower c then ascii_of_N (code c - 32) else c.

Fixpoint lower (s : string) : string :=
  match s with
  | EmptyString => EmptyString
  | String c s' => String (lower_char c) (lower s')
  end.

(** [str.title]: a letter that follows a letter is lower-cased, any
    other letter is upper-cased.  The program applies it to metric
    names, column names and the capture of [[a-zA-Z]+] only, so the
    letters are ASCII. *)
Fixpoint title_from (prev_cased : bool) (s : string) : string :=
  match s with
  | EmptyString => EmptyString
  | String c s' =>
      String (if prev_cased then lower_char c else upper_char c)
             (title_from (is_ascii_alpha c) s')
  end.

Definition title (s : string) : string := title_from false s.

(** [s.replace(a, b)] for one-character [a] and [b]. *)
Fixpoint replace_char (a b : ascii) (s : string) : string :=
  match s with
  | EmptyString => EmptyString
  | String c s' =>
      String (if Ascii.eqb c a then b else c) (replace_char a b s')
  end.

(** [needle in s] *)
Fixpoint contains (needle s : string) : bool :=
  prefix needle s
  || match s with
     | EmptyString => false
     | String _ s' => contains needle s'
     end.

(** [sep.join(bits)] *)
Definition join (sep : string) (bits : list string) : string :=
  String.concat sep bits.

(** Longest prefix of [s] whose characters satisfy [p], and the rest. *)
Fixpoint span (p : ascii -> bool) (s : string) : string * string :=
  match s with
  | EmptyString => (EmptyString, EmptyString)
  | String c s' =>
      if p c
      then let (a, b) := span p s' in (String c a, b)
      else (EmptyString, s)
  end.

Fixpoint skip (n : nat) (s : string) : string :=
  match n, s with
  | O, _ => s
  | S n', String _ s' => skip n' s'
  | S _, EmptyString => EmptyString
  end.

(** [re.match(r"rvp\s+([a-zA-Z]+)", s)]: group 1 of the match anchored
    at the start of [s].  Both [+] are greedy; white space and letters
    are disjoint classes, so giving back white space never helps and
    the match, when there is one, takes all the white space and then
    all the letters. *)
Definition match_rvp (s : string) : option string :=
  if prefix "rvp" s then
    let (ws, rest) := span isspace (skip 3 s) in
    match ws with
    | EmptyString => None
    | String _ _ =>
        let (word, _) := span is_ascii_alpha rest in
        match word with
        | EmptyString => None
        | String _ _ => Some word
        end
    end
  else None.

(** [re.search(r"rvp\s+([a-zA-Z]+)", s)]: the leftmost match. *)
Fixpoint search_rvp (s : string) : option string :=
  match match_rvp s with
  | Some w => Some w
  | None =>
      match s with
      | EmptyString => None
      | String _ s' => search_rvp s'
      end
  end.

End Str.

(* ================================================================== *)
(** ** [datetime.date] *)

Record date : Type := mkdate { year : Z; month : Z; day : Z }.

Definition MINYEAR : Z := 1.
Definition MAXYEAR : Z := 9999.

Definition is_leap (y : Z) : bool :=
  (y mod 4 =? 0) && (negb (y mod 100 =? 0) || (y mod 400 =? 0)).

Definition days_in_month (y m : Z) : Z :=
  if m =? 2 then (if is_leap y then 29 else 28)
  else if (m =? 4) || (m =? 6) || (m =? 9) || (m =? 11) then 30
  else 31.

(** The invariant of every [date] object. *)
Definition valid_date (d : date) : bool :=
  (MINYEAR <=? year d) && (year d <=? MAXYEAR)
  && (1 <=? month d) && (month d <=? 12)
  && (1 <=? day d) && (day d <=? days_in_month (year d) (month d)).

(** The constructor [date(y, m, d)]. *)
Definition date_new (y m d : Z) : PyResult date :=
  if valid_date (mkdate y m d) then Ok (mkdate y m d) else Raise ValueError.

Definition date_ltb (a b : date) : bool :=
  (year a <? year b)
  || ((year a =? year b)
      && ((month a <? month b)
          || ((month a =? month b) && (day a <? day b)))).

Definition date_eqb (a b : date) : bool :=
  (year a =? year b) && (month a =? month b) && (day a =? day b).

Definition date_leb (a b : date) : bool := date_ltb a b || date_eqb a b.

(** Membership of a closed interval of dates. *)
Definition in_window (w : date * date) (d : date) : bool :=
  date_leb (fst w) d && date_leb d (snd w).

(** Calendar quarters counted from year 0: the quarter of a date. *)
Definition quarter_index (d : date) : Z := 4 * year d + (month d - 1) / 3.

(* ================================================================== *)
(** ** [parse_last_quarter] *)

(** [k in keys] *)
Definition Zmem (k : Z) (keys : list Z) : bool := existsb (Z.eqb k) keys.

(** [{...}[k]] on a dict literal. *)
Fixpoint dict_item (d : list (Z * Z)) (k : Z) : PyResult Z :=
  match d with
  | [] => Raise KeyError
  | (k', v) :: d' => if k =? k' then Ok v else dict_item d' k
  end.

Definition lq_q (ref : date) : Z := (month ref - 1) / 3 + 1.

Definition lq_last_q (ref : date) : Z :=
  if 1 <? lq_q ref then lq_q ref - 1 else 4.

Definition lq_year (ref : date) : Z :=
  if 1 <? lq_q ref then year ref else year ref - 1.

Definition lq_start_month (ref : date) : Z := 3 * (lq_last_q ref - 1) + 1.

(** The test that guards the computation of the quarter's end; its
    [else] branch is the fallback [end = start]. *)
Definition lq_quarter_branch (start_month : Z) : bool :=
  Zmem start_month [1; 4; 7; 10].

Definition parse_last_quarter (today : date) (ref : option date)
  : PyResult (date * date) :=
  let ref := match ref with Some r => r | None => today end in
  let year := lq_year ref in
  let start_month := lq_start_month ref in
  start <- date_new year start_month 1 ;;
  month_days <-
    (if Zmem start_month [1; 3; 5; 7; 8; 10; 12] then
       dict_item [(1, 31); (3, 30 + 1); (5, 31); (7, 31); (8, 31);
                  (10, 31); (12, 31)] start_month
     else if start_month =? 2 then
       Ok (if is_leap year then 29 else 28)
     else Ok 30) ;;
  if lq_quarter_branch start_month then
    let em := start_month + 2 in
    ed <-
      (if Zmem em [1; 3; 5; 7; 8; 10; 12] then
         dict_item [(1, 31); (3, 31); (5, 31); (7, 31); (8, 31);
                    (10, 31); (12, 31)] em
       else if em =? 2 then
         Ok (if is_leap year then 29 else 28)
       else Ok 30) ;;
    end_ <- date_new year em ed ;;
    Ok (start, end_)
  else
    Ok (start, start).

(* ================================================================== *)
(** ** Numbers: rounding and formatting *)

Module Num.

(** Nearest integer, ties to the even one. *)
Definition round_half_even (x : Q) : Z :=
  let f := Qfloor x in
  match (x - inject_Z f ?= 1 # 2)%Q with
  | Lt => f
  | Gt => f + 1
  | Eq => if Z.even f then f else f + 1
  end.

(** The amount in hundredths, rounded. *)
Definition cents (x : Q) : Z := round_half_even (x * 100).

(** [x.round(2)] *)
Definition round2 (x : Q) : Q := Qred (inject_Z (cents x) / 100).

(** [sum(xs)], starting from 0. *)
Definition sum (xs : list Q) : Q := fold_right Qplus 0%Q xs.

(** [str(n)] for a natural number. *)
Definition digits (n : Z) : string :=
  NilZero.string_of_uint (N.to_uint (Z.to_N n)).

(** [str(z)] for an [int]. *)
Definition str_int (z : Z) : string :=
  if z <? 0 then "-" ++ digits (- z) else digits z.

(** Left padding with zeros up to [width] characters. *)
Fixpoint zeros (n : nat) : string :=
  match n with
  | O => EmptyString
  | S n' => String "0" (zeros n')
  end.

Definition zfill (width : nat) (s : string) : string :=
  zeros (width - String.length s) ++ s.

(** The thousands separators of the format option [","]. *)
Fixpoint commas (s : string) : string :=
  match s with
  | EmptyString => EmptyString
  | String c s' =>
      String c
        (if (Nat.ltb 0 (String.length s'))
            && (Nat.eqb (Nat.modulo (String.length s') 3) 0)
         then "," ++ commas s'
         else commas s')
  end.

(** [format(x, ",.2f")] *)
Definition format_2f (x : Q) : string :=
  let c := Z.abs (cents x) in
  (if Qnum x <? 0 then "-" else "")
  ++ commas (digits (c / 100)) ++ "." ++ zfill 2 (digits (c mod 100)).

End Num.

(* ================================================================== *)
(** ** The dataset *)

Inductive Metric : Type := Redemptions | Purchases | Assets.

Inductive Dimension : Type := Fund_type | Wholesaler | Advisor | Mandate_name.

(** The column names the program writes as string literals. *)
Definition metric_name (m : Metric) : string :=
  match m with
  | Redemptions => "redemptions"
  | Purchases => "purchases"
  | Assets => "assets"
  end.

Definition dimension_name (g : Dimension) : string :=
  match g with
  | Fund_type => "fund_type"
  | Wholesaler => "wholesaler"
  | Advisor => "advisor"
  | Mandate_name => "mandate_name"
  end.

(** One row of the frame; [date] is the calendar day of the timestamp. *)
Record Row : Type := mkRow {
  r_date : date;
  purchases : Q;
  redemptions : Q;
  assets : Q;
  wholesaler : string;
  advisor : string;
  mandate_name : string;
  fund_type : string;
  rvp : string
}.

Definition DataFrame : Type := list Row.

(** [df[metric]] and [df[group_field]] row by row. *)
Definition metric_col (m : Metric) (r : Row) : Q :=
  match m with
  | Redemptions => redemptions r
  | Purchases => purchases r
  | Assets => assets r
  end.

Definition dimension_col (g : Dimension) (r : Row) : string :=
  match g with
  | Fund_type => fund_type r
  | Wholesaler => wholesaler r
  | Advisor => advisor r
  | Mandate_name => mandate_name r
  end.

Module Frame.

(** Sum of a numeric column over the rows that satisfy [p]. *)
Definition sum_where (val : Row -> Q) (p : Row -> bool) (df : DataFrame)
  : Q :=
  Num.sum (map val (filter p df)).

(** Insertion of a key into an ascending list of keys. *)
Fixpoint insert_asc (k : string) (ks : list string) : list string :=
  match ks with
  | [] => [k]
  | k' :: ks' =>
      if String.leb k k' then k :: ks else k' :: insert_asc k ks'
  end.

(** The group keys of [df.groupby(col)]: the distinct values of the
    column, ascending. *)
Definition group_keys (col : Row -> string) (df : DataFrame)
  : list string :=
  fold_right insert_asc [] (nodup string_dec (map col df)).

(** [df.groupby(col)[val].sum().reset_index()] *)
Definition groupby_sum (col : Row -> string) (val : Row -> Q)
  (df : DataFrame) : list (string * Q) :=
  map (fun k => (k, sum_where val (fun r => String.eqb (col r) k) df))
      (group_keys col df).

(** [agg.sort_values(val, ascending=False)], as a stable insertion
    sort.  pandas leaves the order of equal sums to its sorting
    routine; no property below depends on it. *)
Fixpoint insert_desc (x : string * Q) (l : list (string * Q))
  : list (string * Q) :=
  match l with
  | [] => [x]
  | y :: l' =>
      if Qle_bool (snd y) (snd x) then x :: l else y :: insert_desc x l'
  end.

Definition sort_values_desc (agg : list (string * Q))
  : list (string * Q) :=
  fold_right insert_desc [] agg.

(** Months counted from year 0. *)
Definition month_index (d : date) : Z := 12 * year d + (month d - 1).

Definition Zrange (lo : Z) (n : nat) : list Z :=
  map (fun k => lo + Z.of_nat k) (seq 0 n).

(** [df.resample("M", on="date")[val].sum().reset_index()]: one bin
    for every calendar month from the month of the earliest row to
    the month of the latest row, whether or not a row falls in it;
    the sum over an empty bin is 0.  An empty frame has no bin. *)
Definition resample_month_sum (val : Row -> Q) (df : DataFrame)
  : list (Z * Q) :=
  match map (fun r => month_index (r_date r)) df with
  | [] => []
  | i :: rest =>
      let lo := fold_right Z.min i rest in
      let hi := fold_right Z.max i rest in
      map (fun m =>
             (m, sum_where val
                   (fun r => month_index (r_date r) =? m) df))
          (Zrange lo (Z.to_nat (hi - lo + 1)))
  end.

(** [strftime("%Y-%m")] of the label of a monthly bin. *)
Definition strftime_Ym (m : Z) : string :=
  Num.zfill 4 (Num.digits (m / 12)) ++ "-"
  ++ Num.zfill 2 (Num.digits (m mod 12 + 1)).

End Frame.

(* ================================================================== *)
(** ** Request and response *)

(** The values of the JSON object [user_context] that the router can
    look at. *)
Inductive pyval : Type :=
| PNone
| PBool (b : bool)
| PInt (z : Z)
| PStr (s : string).

(** [bool(v)] *)
Definition truthy (v : pyval) : bool :=
  match v with
  | PNone => false
  | PBool b => b
  | PInt z => negb (z =? 0)
  | PStr s => negb (String.eqb s "")
  end.

(** [str(v)] *)
Definition str (v : pyval) : string :=
  match v with
  | PNone => "None"
  | PBool true => "True"
  | PBool false => "False"
  | PInt z => Num.str_int z
  | PStr s => s
  end.

(** A [Dict[str, Any]] as the list of its items. *)
Definition Dict : Type := list (string * pyval).

(** The value stored under [k], if the key is present. *)
Fixpoint dict_find (d : Dict) (k : string) : option pyval :=
  match d with
  | [] => None
  | (k', v) :: d' => if String.eqb k k' then Some v else dict_find d' k
  end.

(** [d.get(k)], [None] when the key is absent. *)
Definition dict_get (d : Dict) (k : string) : pyval :=
  match dict_find d k with
  | Some v => v
  | None => PNone
  end.

(** [bool(user_ctx)]: [None] and the empty dict are false. *)
Definition ctx_truthy (user_ctx : option Dict) : bool :=
  match user_ctx with
  | Some (_ :: _) => true
  | _ => false
  end.

(** [user_ctx.get(k)] and [user_ctx[k]] behind the test [user_ctx and
    user_ctx.get(k)], where the key's value is true and so present. *)
Definition ctx_get (user_ctx : option Dict) (k : string) : pyval :=
  match user_ctx with
  | Some d => dict_get d k
  | None => PNone
  end.

(** One entry of [datasets]: [{"label": ..., "data": ...}]. *)
Record Dataset : Type := mkDataset {
  label : string;
  data : list Q
}.

Record AskResponse : Type := mkAskResponse {
  type : string;
  title : option string;
  text : option string;
  labels : option (list string);
  datasets : option (list Dataset);
  table : option (list Dict)
}.

(* ================================================================== *)
(** ** [route_question] *)

(** The entity filter: the question's own mention first, then the
    caller's context. *)
Definition rvp_of (q_low : string) (user_ctx : option Dict)
  : option string :=
  match Str.search_rvp q_low with
  | Some w => Some (Str.title w)
  | None =>
      if ctx_truthy user_ctx && truthy (ctx_get user_ctx "rvp")
      then Some (str (ctx_get user_ctx "rvp"))
      else None
  end.

(** [if rvp:] *)
Definition rvp_set (rvp : option string) : option string :=
  match rvp with
  | Some v => if String.eqb v "" then None else Some v
  | None => None
  end.

Definition wants_last_quarter (q_low : string) : bool :=
  Str.contains "last quarter" q_low || Str.contains "past quarter" q_low.

Definition group_field_of (q_low : string) : option Dimension :=
  if Str.contains "by fund type" q_low then Some Fund_type
  else if Str.contains "by wholesaler" q_low then Some Wholesaler
  else if Str.contains "by advisor" q_low then Some Advisor
  else if Str.contains "by mandate" q_low
          || Str.contains "by mandate name" q_low then Some Mandate_name
  else None.

Definition metric_of (q_low : string) : Metric :=
  if Str.contains "redemption" q_low then Redemptions
  else if Str.contains "purchase" q_low then Purchases
  else if Str.contains "asset" q_low then Assets
  else Purchases.

Definition wants_trend (q_low : string) : bool :=
  Str.contains "trend" q_low || Str.contains "over time" q_low
  || Str.contains "by month" q_low.

Definition title_bits (metric : Metric) (rvp : option string)
  (last_quarter : bool) (group_field : option Dimension) : list string :=
  [Str.title (metric_name metric)]
  ++ match rvp_set rvp with
     | Some v => ["for RVP " ++ v]
     | None => []
     end
  ++ (if last_quarter then ["(Last Quarter)"] else [])
  ++ match group_field with
     | Some g =>
         ["by " ++ Str.title (Str.replace_char "_" " " (dimension_name g))]
     | None => []
     end.

(** [df["rvp"].str.lower()] row by row. *)
Definition rvp_lower (r : Row) : string := Str.lower (rvp r).

(** [df[df["rvp"].str.lower() == rvp.lower()]] *)
Definition filter_rvp (rvp : option string) (df : DataFrame) : DataFrame :=
  match rvp_set rvp with
  | Some v =>
      filter (fun r => String.eqb (rvp_lower r) (Str.lower v)) df
  | None => df
  end.

(** The rows whose day lies in the closed interval [[start, end]]. *)
Definition filter_window (w : date * date) (df : DataFrame) : DataFrame :=
  filter (fun r => in_window w (r_date r)) df.

Definition chart (ttl : string) (lbls : list string) (metric : Metric)
  (series : list Q) : AskResponse :=
  mkAskResponse "chart" (Some ttl) None (Some lbls)
    (Some [mkDataset (metric_name metric) series]) None.

(** The router on a frame whose [date] column holds timestamps, as
    every frame read from at least one data row does;
    [route_question_loaded] below adds the frame read from none. *)
Definition route_question (today : date) (snapshot : DataFrame)
  (q : string) (user_ctx : option Dict) : PyResult AskResponse :=
  let q_low := Str.lower q in
  let df := snapshot in
  let rvp := rvp_of q_low user_ctx in
  let df := filter_rvp rvp df in
  df <- (if wants_last_quarter q_low then
           w <- parse_last_quarter today None ;;
           Ok (filter_window w df)
         else Ok df) ;;
  let group_field := group_field_of q_low in
  let metric := metric_of q_low in
  let title :=
    Str.join " "
      (title_bits metric rvp (wants_last_quarter q_low) group_field) in
  match group_field with
  | Some g =>
      let agg :=
        Frame.sort_values_desc
          (Frame.groupby_sum (dimension_col g) (metric_col metric) df) in
      Ok (chart title (map fst agg) metric
            (map (fun kv => Num.round2 (snd kv)) agg))
  | None =>
      if wants_trend q_low then
        let ts := Frame.resample_month_sum (metric_col metric) df in
        Ok (chart (title ++ " (Monthly)")
              (map (fun mv => Frame.strftime_Ym (fst mv)) ts) metric
              (map (fun mv => Num.round2 (snd mv)) ts))
      else
        let total :=
          match df with
          | [] => 0%Q
          | _ :: _ => Num.sum (map (metric_col metric) df)
          end in
        Ok (mkAskResponse "text" (Some title)
              (Some (Str.title (metric_name metric) ++ " = "
                     ++ Num.format_2f total))
              None None None)
  end.

(** [route_question] on the frame as [load_data] reads it.  With at
    least one data row [read_csv] parses the [date] column into
    timestamps, every filter keeps that type, and the router is
    [route_question] above.  From a file with the header line alone
    [read_csv] has nothing to parse and leaves the column with the type
    [object]: then [df["date"].dt], reached after [parse_last_quarter()]
    for a question about the last quarter, raises [AttributeError], and
    [df.resample("M", on="date")], reached for a trend question without
    grouping, raises [TypeError]; the other paths use neither. *)
Definition route_question_loaded (today : date) (snapshot : DataFrame)
  (q : string) (user_ctx : option Dict) : PyResult AskResponse :=
  match snapshot with
  | _ :: _ => route_question today snapshot q user_ctx
  | [] =>
      let q_low := Str.lower q in
      if wants_last_quarter q_low then
        w <- parse_last_quarter today None ;;
        Raise AttributeError
      else
        match group_field_of q_low with
        | Some _ => route_question today [] q user_ctx
        | None =>
            if wants_trend q_low then Raise TypeError
            else route_question today [] q user_ctx
        end
  end.

(* ================================================================== *)
(** ** What the specification says, as predicates *)

(** A closed interval of dates that covers one calendar quarter and
    nothing else. *)
Definition covers_quarter (w : date * date) (qi : Z) : Prop :=
  valid_date (fst w) = true /\ valid_date (snd w) = true
  /\ forall d, valid_date d = true ->
       (in_window w d = true <-> quarter_index d = qi).

(** The contract of the last-quarter helper at one reference date. *)
Definition last_quarter_contract (today ref : date) : Prop :=
  exists w, parse_last_quarter today (Some ref) = Ok w
            /\ covers_quarter w (quarter_index ref - 1).

(** The reference dates whose preceding quarter lies in year 0, which
    [datetime.date] cannot represent. *)
Definition first_quarter_of_minyear (ref : date) : bool :=
  (year ref =? MINYEAR) && (month ref <=? 3).

(** [needle] occurs in [s]. *)
Definition occurs (needle s : string) : Prop :=
  exists a b, s = a ++ needle ++ b.

(** The system date is one [date.today()] can return and its preceding
    quarter exists: any day from 0001-04-01 on. *)
Definition clock_ok (today : date) : bool :=
  valid_date today && negb (first_quarter_of_minyear today).

(** The rows left after the entity filter and the time window. *)
Definition selected_rows (today : date) (snapshot : DataFrame)
  (q_low : string) (user_ctx : option Dict) : PyResult DataFrame :=
  let df := filter_rvp (rvp_of q_low user_ctx) snapshot in
  if wants_last_quarter q_low then
    w <- parse_last_quarter today None ;; Ok (filter_window w df)
  else Ok df.

(** The display title of a question. *)
Definition title_of (q_low : string) (user_ctx : option Dict) : string :=
  Str.join " "
    (title_bits (metric_of q_low) (rvp_of q_low user_ctx)
       (wants_last_quarter q_low) (group_field_of q_low)).

(** The three shapes of answer. *)
Definition breakdown_response (g : Dimension) (metric : Metric)
  (ttl : string) (df : DataFrame) : AskResponse :=
  let agg :=
    Frame.sort_values_desc
      (Frame.groupby_sum (dimension_col g) (metric_col metric) df) in
  chart ttl (map fst agg) metric (map (fun kv => Num.round2 (snd kv)) agg).

Definition monthly_response (metric : Metric) (ttl : string)
  (df : DataFrame) : AskResponse :=
  let ts := Frame.resample_month_sum (metric_col metric) df in
  chart (ttl ++ " (Monthly)")
    (map (fun mv => Frame.strftime_Ym (fst mv)) ts) metric
    (map (fun mv => Num.round2 (snd mv)) ts).

Definition scalar_response (metric : Metric) (ttl : string)
  (df : DataFrame) : AskResponse :=
  mkAskResponse "text" (Some ttl)
    (Some (Str.title (metric_name metric) ++ " = "
           ++ Num.format_2f (Num.sum (map (metric_col metric) df))))
    None None None.

(** The sum of a metric over the rows of one group. *)
Definition group_total (g : Dimension) (metric : Metric) (df : DataFrame)
  (k : string) : Q :=
  Frame.sum_where (metric_col metric)
    (fun r => String.eqb (dimension_col g r) k) df.

(** The sum of a metric over the rows of one calendar month. *)
Definition month_total (metric : Metric) (df : DataFrame) (m : Z) : Q :=
  Frame.sum_where (metric_col metric)
    (fun r => Frame.month_index (r_date r) =? m) df.



(** A monthly chart over [df]: title with the suffix, one label for
    each month of [months] in chronological order, the series holding
    the rounded totals of those months; [buckets] says which months
    there are. *)
Definition monthly_chart (buckets : DataFrame -> list Z -> Prop)
  (metric : Metric) (ttl : string) (df : DataFrame) (resp : AskResponse)
  : Prop :=
  type resp = "chart"
  /\ title resp = Some (ttl ++ " (Monthly)")
  /\ exists months,
       labels resp = Some (map Frame.strftime_Ym months)
       /\ datasets resp
          = Some [mkDataset (metric_name metric)
                    (map (fun m => Num.round2 (month_total metric df m))
                       months)]
       /\ StronglySorted Z.lt months
       /\ buckets df months.

(** The buckets are the months in which some row falls. *)
Definition months_present (df : DataFrame) (months : list Z) : Prop :=
  forall m, In m months
            <-> exists r, In r df /\ Frame.month_index (r_date r) = m.

(** The buckets are the months from the earliest row to the latest. *)
Definition months_spanned (df : DataFrame) (months : list Z) : Prop :=
  forall m, In m months
            <-> exists r1 r2,
                  In r1 df /\ In r2 df
                  /\ Frame.month_index (r_date r1) <= m
                     <= Frame.month_index (r_date r2).

(** The answer to a trend question without grouping, with a given
    notion of bucket. *)
Definition trend_contract (buckets : DataFrame -> list Z -> Prop)
  (today : date) (snapshot : DataFrame) (q : string)
  (user_ctx : option Dict) : Prop :=
  exists resp df,
    route_question_loaded today snapshot q user_ctx = Ok resp
    /\ selected_rows today snapshot (Str.lower q) user_ctx = Ok df
    /\ monthly_chart buckets (metric_of (Str.lower q))
         (title_of (Str.lower q) user_ctx) df resp.

(** Two questions that select the same metric, entity filter and time
    window. *)
Definition same_selection (q1 q2 : string) (user_ctx : option Dict)
  : Prop :=
  metric_of (Str.lower q1) = metric_of (Str.lower q2)
  /\ rvp_of (Str.lower q1) user_ctx = rvp_of (Str.lower q2) user_ctx
  /\ wants_last_quarter (Str.lower q1) = wants_last_quarter (Str.lower q2).

(** The text of [text_resp] reports the sum of the series of
    [chart_resp]. *)
Definition series_sum_reported (metric : Metric)
  (chart_resp text_resp : AskResponse) : Prop :=
  exists series,
    datasets chart_resp = Some [mkDataset (metric_name metric) series]
    /\ text text_resp
       = Some (Str.title (metric_name metric) ++ " = "
               ++ Num.format_2f (Num.sum series)).

Definition roundtrip_contract (today : date) (snapshot : DataFrame)
  (q_grouped q_plain : string) (user_ctx : option Dict) : Prop :=
  exists chart_resp text_resp,
    route_question_loaded today snapshot q_grouped user_ctx = Ok chart_resp
    /\ route_question_loaded today snapshot q_plain user_ctx = Ok text_resp
    /\ series_sum_reported (metric_of (Str.lower q_plain))
         chart_resp text_resp.

(** An amount that is a whole number of hundredths. *)
Definition whole_cents (x : Q) : Prop := exists z : Z, (x == z # 100)%Q.

(** An amount that is a whole number. *)
Definition whole_amount (x : Q) : Prop := exists z : Z, x = inject_Z z.

(** Amounts on which the arithmetic of a [float64] or [int64] column is
    the exact one: whole numbers whose absolute values, times 100, add
    up to less than 2^53.  Every sum of some of them, in any order, and
    its product by 100 is then a whole number below 2^53, which both
    column types hold and add without error. *)
Definition exact_amounts (val : Row -> Q) (df : DataFrame) : Prop :=
  (forall r, In r df -> whole_amount (val r))
  /\ (Num.sum (map (fun r => Qabs (val r)) df) * 100 < inject_Z (2 ^ 53))%Q.

(** The value stored under [k] in the context, if there is one. *)
Definition ctx_find (user_ctx : option Dict) (k : string) : option pyval :=
  match user_ctx with
  | Some d => dict_find d k
  | None => None
  end.

(** The entity filter as the specification states it: the question's
    match, else the value of the context's key, else none. *)
Definition entity_filter_stated (q_low : string) (user_ctx : option Dict)
  : option string :=
  match Str.search_rvp q_low with
  | Some w => Some (Str.title w)
  | None =>
      match ctx_find user_ctx "rvp" with
      | Some v => Some (str v)
      | None => None
      end
  end.

(** The same, with the context's value used only when it is true. *)
Definition entity_filter_truthy (q_low : string) (user_ctx : option Dict)
  : option string :=
  match Str.search_rvp q_low with
  | Some w => Some (Str.title w)
  | None =>
      match ctx_find user_ctx "rvp" with
      | Some v => if truthy v then Some (str v) else None
      | None => None
      end
  end.

(** Every character of [s] satisfies [p]. *)
Fixpoint all_chars (p : ascii -> bool) (s : string) : bool :=
  match s with
  | EmptyString => true
  | String c s' => p c && all_chars p s'
  end.

(** [s] does not go on with a character that satisfies [p]. *)
Definition stops (p : ascii -> bool) (s : string) : Prop :=
  match s with
  | EmptyString => True
  | String c _ => p c = false
  end.

(** [s] begins with a match of "rvp", white space, and the alphabetic
    token [w]: the greedy match of the pattern at the start of [s]. *)
Definition rvp_mention (s w : string) : Prop :=
  exists ws rest,
    s = "rvp" ++ ws ++ w ++ rest
    /\ ws <> "" /\ all_chars Str.isspace ws = true
    /\ w <> "" /\ all_chars Str.is_ascii_alpha w = true
    /\ stops Str.is_ascii_alpha rest.

(** [w] is the token of the leftmost mention in [s]. *)
Definition leftmost_rvp_mention (s w : string) : Prop :=
  exists a b,
    s = a ++ b /\ rvp_mention b w
    /\ forall a' b' w',
         s = a' ++ b' -> (String.length a' < String.length a)%nat ->
         ~ rvp_mention b' w'.



(* ================================================================== *)
(** ** The process: the cached frame and the endpoint *)

(** The body of a request to [/ask]. *)
Record AskRequest : Type := mkAskRequest {
  question : string;
  user_context : option Dict
}.

(** What the process finds outside itself when a request arrives: the
    frame [load_data()] would return now, [None] when the warehouse or
    the file fails, and the date of the clock. *)
Record World : Type := mkWorld {
  w_load : option DataFrame;
  w_today : date
}.

(** [_DATA_CACHE] *)
Definition Cache : Type := option DataFrame.

(** [get_df()]: the frame handed out, [None] when [load_data()] raised,
    and the cache afterwards.  The frame handed out is a copy of the
    cached one; as a value it is the same list of rows. *)
Definition get_df (load_data : option DataFrame) (cache : Cache)
  : option DataFrame * Cache :=
  match cache with
  | None =>
      match load_data with
      | Some df => (Some df, Some df)
      | None => (None, None)
      end
  | Some df => (Some df, Some df)
  end.

(** How a request ends: with a response, or with the exception of
    [load_data()] or of the router. *)
Inductive Outcome : Type :=
| Response (r : AskResponse)
| LoadError
| RouteError (e : exn).

(** [ask(req)], with the cache before and after. *)
Definition ask (w : World) (cache : Cache) (req : AskRequest)
  : Outcome * Cache :=
  match get_df (w_load w) cache with
  | (Some df, cache') =>
      (match route_question_loaded (w_today w) df (question req)
               (user_context req) with
       | Ok r => Response r
       | Raise e => RouteError e
       end, cache')
  | (None, cache') => (LoadError, cache')
  end.

(** The requests of one process, in the order they arrive. *)
Fixpoint serve (cache : Cache) (reqs : list (World * AskRequest))
  : list Outcome * Cache :=
  match reqs with
  | [] => ([], cache)
  | (w, req) :: reqs' =>
      let (o, cache') := ask w cache req in
      let (os, cache'') := serve cache' reqs' in
      (o :: os, cache'')
  end.

(** The outcome of a request answered from the frame [df]. *)
Definition answer_from (df : DataFrame) (wr : World * AskRequest)
  : Outcome :=
  match route_question_loaded (w_today (fst wr)) df (question (snd wr))
          (user_context (snd wr)) with
  | Ok r => Response r
  | Raise e => RouteError e
  end.

(** The points of a chart: each label with the value of the series at
    the same index. *)
Definition chart_points (resp : AskResponse) : list (string * Q) :=
  match labels resp, datasets resp with
  | Some lbls, Some [ds] => combine lbls (data ds)
  | _, _ => []
  end.

(* ================================================================== *)
(** * Lemmas *)

(** ** Dates *)

Lemma valid_date_bounds d :
  valid_date d = true ->
  MINYEAR <= year d <= MAXYEAR /\ 1 <= month d <= 12
  /\ 1 <= day d <= days_in_month (year d) (month d).
Proof.
  unfold valid_date. rewrite !andb_true_iff, !Z.leb_le. tauto.
Qed.

Lemma valid_date_intro y m d :
  MINYEAR <= y <= MAXYEAR -> 1 <= m <= 12 ->
  1 <= d <= days_in_month y m ->
  valid_date (mkdate y m d) = true.
Proof.
  intros. unfold valid_date; simpl.
  rewrite !andb_true_iff, !Z.leb_le. tauto.
Qed.

Lemma days_in_month_range y m : 28 <= days_in_month y m <= 31.
Proof.
  unfold days_in_month.
  destruct (m =? 2); [destruct (is_leap y); lia|].
  destruct ((m =? 4) || (m =? 6) || (m =? 9) || (m =? 11)); lia.
Qed.

Lemma date_new_ok y m d :
  valid_date (mkdate y m d) = true -> date_new y m d = Ok (mkdate y m d).
Proof. unfold date_new. now intros ->. Qed.

Lemma date_ltb_lt a b :
  date_ltb a b = true <->
  year a < year b
  \/ (year a = year b
      /\ (month a < month b \/ (month a = month b /\ day a < day b))).
Proof.
  unfold date_ltb.
  rewrite !orb_true_iff, !andb_true_iff, !orb_true_iff, !andb_true_iff,
    !Z.ltb_lt, !Z.eqb_eq.
  tauto.
Qed.

Lemma date_eqb_eq a b :
  date_eqb a b = true <->
  year a = year b /\ month a = month b /\ day a = day b.
Proof.
  unfold date_eqb. rewrite !andb_true_iff, !Z.eqb_eq. tauto.
Qed.

Lemma date_leb_le a b :
  date_leb a b = true <->
  year a < year b
  \/ (year a = year b
      /\ (month a < month b \/ (month a = month b /\ day a <= day b))).
Proof.
  unfold date_leb. rewrite orb_true_iff, date_ltb_lt, date_eqb_eq. lia.
Qed.

Lemma month_cases m :
  1 <= m <= 12 ->
  m = 1 \/ m = 2 \/ m = 3 \/ m = 4 \/ m = 5 \/ m = 6
  \/ m = 7 \/ m = 8 \/ m = 9 \/ m = 10 \/ m = 11 \/ m = 12.
Proof. lia. Qed.

(** ** [parse_last_quarter] *)

Lemma lq_start_month_cases ref :
  1 <= month ref <= 12 ->
  (month ref <= 3 /\ lq_year ref = year ref - 1 /\ lq_start_month ref = 10)
  \/ (4 <= month ref <= 6 /\ lq_year ref = year ref
      /\ lq_start_month ref = 1)
  \/ (7 <= month ref <= 9 /\ lq_year ref = year ref
      /\ lq_start_month ref = 4)
  \/ (10 <= month ref /\ lq_year ref = year ref
      /\ lq_start_month ref = 7).
Proof.
  intros H. unfold lq_start_month, lq_year, lq_last_q, lq_q.
  destruct (month_cases _ H) as
    [E|[E|[E|[E|[E|[E|[E|[E|[E|[E|[E|E]]]]]]]]]]];
    rewrite E; cbn; lia.
Qed.

(** The pair the helper returns, with the length of the closing month
    taken from the calendar instead of the helper's tables. *)
Lemma parse_last_quarter_value today ref :
  valid_date ref = true ->
  first_quarter_of_minyear ref = false ->
  parse_last_quarter today (Some ref)
  = Ok (mkdate (lq_year ref) (lq_start_month ref) 1,
        mkdate (lq_year ref) (lq_start_month ref + 2)
          (days_in_month (lq_year ref) (lq_start_month ref + 2))).
Proof.
  intros V F. apply valid_date_bounds in V as (Hy & Hm & _).
  unfold first_quarter_of_minyear in F.
  rewrite andb_false_iff, Z.eqb_neq, Z.leb_gt in F.
  unfold MINYEAR, MAXYEAR in *.
  unfold parse_last_quarter.
  destruct (lq_start_month_cases ref Hm) as
    [(M & -> & ->)|[(M & -> & ->)|[(M & -> & ->)|(M & -> & ->)]]];
    (rewrite date_new_ok
      by (apply valid_date_intro; unfold MINYEAR, MAXYEAR;
          [lia|lia|cbn; lia]));
    cbn -[date_new days_in_month];
    (rewrite date_new_ok
      by (apply valid_date_intro; unfold MINYEAR, MAXYEAR;
          [lia|lia|cbn; lia]));
    reflexivity.
Qed.

Lemma quarter_index_ref ref :
  1 <= month ref <= 12 ->
  quarter_index ref - 1 = 4 * lq_year ref + (lq_start_month ref - 1) / 3.
Proof.
  intros H. unfold quarter_index.
  destruct (lq_start_month_cases ref H) as
    [(M & -> & ->)|[(M & -> & ->)|[(M & -> & ->)|(M & -> & ->)]]];
    Z.div_mod_to_equations; lia.
Qed.

(** The window from the first day of month [sm] to the last day of
    month [sm + 2], for [sm] the first month of a quarter, is that
    quarter. *)
Lemma quarter_window_covers y sm :
  MINYEAR <= y <= MAXYEAR ->
  sm = 1 \/ sm = 4 \/ sm = 7 \/ sm = 10 ->
  covers_quarter
    (mkdate y sm 1, mkdate y (sm + 2) (days_in_month y (sm + 2)))
    (4 * y + (sm - 1) / 3).
Proof.
  intros Hy Hsm. pose proof (days_in_month_range y (sm + 2)) as R.
  split; [|split].
  - pose proof (days_in_month_range y sm).
    apply valid_date_intro; cbn [year month day]; lia.
  - apply valid_date_intro; cbn [year month day]; lia.
  - intros d V. apply valid_date_bounds in V as (_ & Hm & Hd).
    unfold in_window, quarter_index. cbn [fst snd].
    rewrite andb_true_iff, !date_leb_le. cbn [year month day].
    destruct d as [yd md dd]; cbn [year month day] in *.
    destruct (month_cases _ Hm) as
      [E|[E|[E|[E|[E|[E|[E|[E|[E|[E|[E|E]]]]]]]]]]]; subst md;
      destruct Hsm as [E|[E|[E|E]]]; subst sm; cbn -[Z.mul] in *;
      split; intros; Z.div_mod_to_equations; lia.
Qed.

Lemma parse_last_quarter_minyear today ref :
  valid_date ref = true ->
  first_quarter_of_minyear ref = true ->
  parse_last_quarter today (Some ref) = Raise ValueError.
Proof.
  intros V F. apply valid_date_bounds in V as (_ & Hm & _).
  unfold first_quarter_of_minyear in F.
  rewrite andb_true_iff, Z.eqb_eq, Z.leb_le in F. destruct F as [Y M].
  unfold parse_last_quarter.
  destruct (lq_start_month_cases ref Hm) as
    [(_ & -> & ->)|[(M' & _)|[(M' & _)|(M' & _)]]]; try lia.
  rewrite Y. reflexivity.
Qed.

Lemma lq_start_month_in ref :
  1 <= month ref <= 12 ->
  lq_start_month ref = 1 \/ lq_start_month ref = 4
  \/ lq_start_month ref = 7 \/ lq_start_month ref = 10.
Proof.
  intros H.
  destruct (lq_start_month_cases ref H) as
    [(_ & _ & ->)|[(_ & _ & ->)|[(_ & _ & ->)|(_ & _ & ->)]]]; auto.
Qed.

Lemma lq_year_range ref :
  valid_date ref = true ->
  first_quarter_of_minyear ref = false ->
  MINYEAR <= lq_year ref <= MAXYEAR.
Proof.
  intros V F. apply valid_date_bounds in V as (Hy & Hm & _).
  unfold first_quarter_of_minyear in F.
  rewrite andb_false_iff, Z.eqb_neq, Z.leb_gt in F.
  unfold MINYEAR, MAXYEAR in *.
  destruct (lq_start_month_cases ref Hm) as
    [(M & -> & _)|[(M & -> & _)|[(M & -> & _)|(M & -> & _)]]]; lia.
Qed.

(* ================================================================== *)
(** * The claims *)

(** C1, as the specification states it, fails: for a reference date in
    January to March of year 1 the preceding quarter lies in year 0 and
    [date(0, 10, 1)] raises [ValueError], so no interval is returned. *)
Lemma last_quarter_contract_fails_in_year_one :
  valid_date (mkdate 1 1 15) = true
  /\ parse_last_quarter (mkdate 2024 5 15) (Some (mkdate 1 1 15))
     = Raise ValueError
  /\ ~ last_quarter_contract (mkdate 2024 5 15) (mkdate 1 1 15).
Proof.
  split; [reflexivity|]. split; [reflexivity|].
  intros (w & H & _). discriminate H.
Qed.

(** C1, amended: for every reference date outside the first quarter of
    year 1, [parse_last_quarter] returns a pair of dates [(start, end)]
    such that a date lies in the closed interval [[start, end]] exactly
    when it belongs to the calendar quarter just before the quarter of
    the reference date; for 2024-05-15 the pair is (2024-01-01,
    2024-03-31) and for 2024-01-15 it is (2023-10-01, 2023-12-31). *)
Theorem last_quarter_covers_previous_quarter today ref :
  valid_date ref = true ->
  first_quarter_of_minyear ref = false ->
  last_quarter_contract today ref
  /\ parse_last_quarter today (Some (mkdate 2024 5 15))
     = Ok (mkdate 2024 1 1, mkdate 2024 3 31)
  /\ parse_last_quarter today (Some (mkdate 2024 1 15))
     = Ok (mkdate 2023 10 1, mkdate 2023 12 31).
Proof.
  intros V F. split; [|split; reflexivity].
  eexists. split; [apply parse_last_quarter_value; assumption|].
  pose proof (valid_date_bounds _ V) as (_ & Hm & _).
  rewrite (quarter_index_ref ref Hm).
  apply quarter_window_covers.
  - apply lq_year_range; assumption.
  - apply lq_start_month_in; assumption.
Qed.

Lemma last_quarter_covers_previous_quarter_witness :
  last_quarter_contract (mkdate 2026 11 3) (mkdate 2024 2 29)
  /\ parse_last_quarter (mkdate 2026 11 3) (Some (mkdate 2024 5 15))
     = Ok (mkdate 2024 1 1, mkdate 2024 3 31)
  /\ parse_last_quarter (mkdate 2026 11 3) (Some (mkdate 2024 1 15))
     = Ok (mkdate 2023 10 1, mkdate 2023 12 31).
Proof.
  apply (last_quarter_covers_previous_quarter
           (mkdate 2026 11 3) (mkdate 2024 2 29)); reflexivity.
Defined.

(** C10: for every reference date the start month that
    [parse_last_quarter] computes is 1, 4, 7 or 10, so the test guarding
    the fallback [end = start] succeeds; every pair the helper returns
    has its start on the first day of a month and start <= end (indeed
    start < end); and the helper does return a pair unless the
    preceding quarter falls before year 1. *)
Theorem last_quarter_start_month_opens_quarter today ref :
  valid_date ref = true ->
  In (lq_start_month ref) [1; 4; 7; 10]
  /\ lq_quarter_branch (lq_start_month ref) = true
  /\ (forall s e, parse_last_quarter today (Some ref) = Ok (s, e) ->
        day s = 1 /\ date_leb s e = true /\ s <> e)
  /\ (first_quarter_of_minyear ref = false ->
        exists s e, parse_last_quarter today (Some ref) = Ok (s, e)).
Proof.
  intros V. pose proof (valid_date_bounds _ V) as (_ & Hm & _).
  pose proof (lq_start_month_in ref Hm) as Hsm.
  split; [|split; [|split]].
  - simpl. intuition auto.
  - destruct Hsm as [-> |[-> |[-> | ->]]]; reflexivity.
  - intros s e H.
    destruct (first_quarter_of_minyear ref) eqn:F.
    + rewrite (parse_last_quarter_minyear today ref V F) in H.
      discriminate H.
    + rewrite (parse_last_quarter_value today ref V F) in H.
      injection H as <- <-. split; [reflexivity|].
      split.
      * apply date_leb_le; cbn [year month day]. lia.
      * intros [= E _]. lia.
  - intros F. rewrite (parse_last_quarter_value today ref V F).
    eauto.
Qed.

Lemma last_quarter_start_month_opens_quarter_witness :
  In (lq_start_month (mkdate 2024 1 15)) [1; 4; 7; 10]
  /\ lq_quarter_branch (lq_start_month (mkdate 2024 1 15)) = true
  /\ (forall s e,
        parse_last_quarter (mkdate 2026 11 3) (Some (mkdate 2024 1 15))
        = Ok (s, e) ->
        day s = 1 /\ date_leb s e = true /\ s <> e)
  /\ (first_quarter_of_minyear (mkdate 2024 1 15) = false ->
        exists s e,
          parse_last_quarter (mkdate 2026 11 3) (Some (mkdate 2024 1 15))
          = Ok (s, e)).
Proof.
  apply (last_quarter_start_month_opens_quarter
           (mkdate 2026 11 3) (mkdate 2024 1 15)); reflexivity.
Defined.

(* ================================================================== *)
(** ** Strings *)

Lemma prefix_occurs n s :
  prefix n s = true <-> exists b, s = n ++ b.
Proof.
  revert s. induction n as [|c n IH]; intros s.
  - destruct s; simpl; split; eauto.
  - destruct s as [|c' s]; simpl.
    + split; [discriminate|intros (b & H); discriminate H].
    + destruct (ascii_dec c c') as [<-|N].
      * rewrite IH. split; intros (b & H); exists b.
        -- now rewrite H.
        -- now injection H.
      * split; [discriminate|]. intros (b & H).
        injection H as E _. now elim N.
Qed.

Lemma contains_occurs n s :
  Str.contains n s = true <-> occurs n s.
Proof.
  unfold occurs. induction s as [|c s IH].
  - cbn [Str.contains]. rewrite orb_false_r, prefix_occurs. split.
    + intros (b & H). exists "", b. exact H.
    + intros (a & b & H). destruct a; [eauto|discriminate H].
  - cbn [Str.contains]. rewrite orb_true_iff, prefix_occurs, IH. split.
    + intros [(b & H)|(a & b & H)].
      * exists "", b. exact H.
      * exists (String c a), b. simpl. now rewrite H.
    + intros (a & b & H). destruct a as [|c' a].
      * left. exists b. exact H.
      * right. exists a, b. simpl in H. now injection H.
Qed.

Lemma contains_not_occurs n s :
  Str.contains n s = false <-> ~ occurs n s.
Proof.
  rewrite <- contains_occurs. destruct (Str.contains n s); split;
    intros; try discriminate; try reflexivity; tauto.
Qed.

(** ** [route_question], path by path *)

Lemma route_question_eq today snapshot q user_ctx :
  route_question today snapshot q user_ctx
  = (df <- selected_rows today snapshot (Str.lower q) user_ctx ;;
     Ok (match group_field_of (Str.lower q) with
         | Some g =>
             breakdown_response g (metric_of (Str.lower q))
               (title_of (Str.lower q) user_ctx) df
         | None =>
             if wants_trend (Str.lower q)
             then monthly_response (metric_of (Str.lower q))
                    (title_of (Str.lower q) user_ctx) df
             else scalar_response (metric_of (Str.lower q))
                    (title_of (Str.lower q) user_ctx) df
         end)).
Proof.
  unfold route_question, selected_rows, title_of, breakdown_response,
    monthly_response, scalar_response.
  destruct (wants_last_quarter (Str.lower q)).
  - destruct (parse_last_quarter today None) as [w|e]; [|reflexivity].
    cbn [bind].
    destruct (group_field_of (Str.lower q)); [reflexivity|].
    destruct (wants_trend (Str.lower q)); [reflexivity|].
    destruct (filter_window w _); reflexivity.
  - cbn [bind].
    destruct (group_field_of (Str.lower q)); [reflexivity|].
    destruct (wants_trend (Str.lower q)); [reflexivity|].
    destruct (filter_rvp _ _); reflexivity.
Qed.

Lemma route_question_loaded_nonempty today snapshot q user_ctx :
  snapshot <> [] ->
  route_question_loaded today snapshot q user_ctx
  = route_question today snapshot q user_ctx.
Proof. destruct snapshot; [congruence|reflexivity]. Qed.

Lemma parse_last_quarter_today today :
  clock_ok today = true ->
  exists w, parse_last_quarter today None = Ok w.
Proof.
  unfold clock_ok. rewrite andb_true_iff, negb_true_iff. intros [V F].
  change (parse_last_quarter today None)
    with (parse_last_quarter today (Some today)).
  rewrite (parse_last_quarter_value today today V F). eauto.
Qed.

Lemma selected_rows_ok today snapshot q_low user_ctx :
  clock_ok today = true ->
  exists df, selected_rows today snapshot q_low user_ctx = Ok df
             /\ incl df snapshot.
Proof.
  intros C. unfold selected_rows.
  assert (I : incl (filter_rvp (rvp_of q_low user_ctx) snapshot) snapshot).
  { unfold filter_rvp. destruct (rvp_set _); [|apply incl_refl].
    intros r H. now apply filter_In in H. }
  destruct (wants_last_quarter q_low).
  - destruct (parse_last_quarter_today today C) as [w ->]. cbn [bind].
    eexists. split; [reflexivity|].
    intros r H. apply filter_In in H. apply I, H.
  - eauto.
Qed.

(* ================================================================== *)
(** ** Grouping and sorting *)

Section Grouping.

Variable col : Row -> string.
Variable val : Row -> Q.

Lemma insert_asc_perm k ks :
  Permutation (Frame.insert_asc k ks) (k :: ks).
Proof.
  induction ks as [|k' ks IH]; simpl; [reflexivity|].
  destruct (String.leb k k'); [reflexivity|].
  rewrite IH. apply perm_swap.
Qed.

Lemma sort_keys_perm ks :
  Permutation (fold_right Frame.insert_asc [] ks) ks.
Proof.
  induction ks as [|k ks IH]; simpl; [reflexivity|].
  rewrite insert_asc_perm. now constructor.
Qed.

Lemma group_keys_NoDup df : NoDup (Frame.group_keys col df).
Proof.
  unfold Frame.group_keys.
  eapply Permutation_NoDup;
    [symmetry; apply sort_keys_perm|apply NoDup_nodup].
Qed.

Lemma group_keys_In df k :
  In k (Frame.group_keys col df) <-> exists r, In r df /\ col r = k.
Proof.
  unfold Frame.group_keys. split.
  - intros H.
    apply (Permutation_in _ (sort_keys_perm _)) in H.
    apply nodup_In, in_map_iff in H. destruct H as (r & E & I). eauto.
  - intros (r & I & E).
    apply (Permutation_in _ (Permutation_sym (sort_keys_perm _))).
    apply nodup_In, in_map_iff. eauto.
Qed.



Lemma insert_desc_perm x l :
  Permutation (Frame.insert_desc x l) (x :: l).
Proof.
  induction l as [|y l IH]; simpl; [reflexivity|].
  destruct (Qle_bool (snd y) (snd x)); [reflexivity|].
  rewrite IH. apply perm_swap.
Qed.

Lemma sort_values_desc_perm agg :
  Permutation (Frame.sort_values_desc agg) agg.
Proof.
  unfold Frame.sort_values_desc.
  induction agg as [|x agg IH]; simpl; [reflexivity|].
  rewrite insert_desc_perm. now constructor.
Qed.




End Grouping.



Lemma append_empty_r s : s ++ "" = s.
Proof. induction s; simpl; congruence. Qed.




Lemma wants_trend_true q_low :
  occurs "trend" q_low \/ occurs "over time" q_low
  \/ occurs "by month" q_low ->
  wants_trend q_low = true.
Proof.
  rewrite <- !contains_occurs. unfold wants_trend.
  rewrite !orb_true_iff. tauto.
Qed.






Lemma route_question_metric today snapshot q user_ctx resp :
  route_question today snapshot q user_ctx = Ok resp ->
  (type resp = "chart"
   /\ exists series,
        datasets resp
        = Some [mkDataset (metric_name (metric_of (Str.lower q))) series])
  \/ (type resp = "text"
      /\ exists total,
           text resp
           = Some (Str.title (metric_name (metric_of (Str.lower q)))
                   ++ " = " ++ Num.format_2f total)).
Proof.
  rewrite route_question_eq.
  destruct (selected_rows today snapshot (Str.lower q) user_ctx)
    as [df|e]; [|discriminate].
  cbn [bind]. intros [= <-].
  destruct (group_field_of (Str.lower q)).
  - left. split; [reflexivity|]. eexists. reflexivity.
  - destruct (wants_trend (Str.lower q)).
    + left. split; [reflexivity|]. eexists. reflexivity.
    + right. split; [reflexivity|]. eexists. reflexivity.
Qed.

(** C7: the metric of a question is found by testing its lowercased
    text for "redemption", then "purchase", then "asset", the first
    hit deciding; a question with none of the three gets purchases;
    and this metric is the one every response reports, as the label of
    the chart's series or in front of the text's total. *)
Theorem metric_first_match q :
  (occurs "redemption" (Str.lower q) ->
   metric_of (Str.lower q) = Redemptions)
  /\ (~ occurs "redemption" (Str.lower q) ->
      occurs "purchase" (Str.lower q) ->
      metric_of (Str.lower q) = Purchases)
  /\ (~ occurs "redemption" (Str.lower q) ->
      ~ occurs "purchase" (Str.lower q) ->
      occurs "asset" (Str.lower q) ->
      metric_of (Str.lower q) = Assets)
  /\ (~ occurs "redemption" (Str.lower q) ->
      ~ occurs "purchase" (Str.lower q) ->
      ~ occurs "asset" (Str.lower q) ->
      metric_of (Str.lower q) = Purchases)
  /\ (forall today snapshot user_ctx resp,
        route_question today snapshot q user_ctx = Ok resp ->
        (type resp = "chart"
         /\ exists series,
              datasets resp
              = Some [mkDataset (metric_name (metric_of (Str.lower q)))
                        series])
        \/ (type resp = "text"
            /\ exists total,
                 text resp
                 = Some (Str.title (metric_name (metric_of (Str.lower q)))
                         ++ " = " ++ Num.format_2f total))).
Proof.
  unfold metric_of at 1 2 3 4.
  rewrite <- !contains_not_occurs, <- !contains_occurs.
  repeat split; intros;
    try (repeat match goal with
                | H : Str.contains _ _ = _ |- _ => rewrite H; clear H
                end; reflexivity).
  eapply route_question_metric; eassumption.
Qed.

Lemma metric_first_match_witness :
  metric_of (Str.lower "Assets and REDEMPTIONS of purchases") = Redemptions
  /\ metric_of (Str.lower "Assets or Purchases?") = Purchases
  /\ metric_of (Str.lower "total ASSETS") = Assets
  /\ metric_of (Str.lower "how are we doing?") = Purchases
  /\ ((type (scalar_response Purchases "Purchases" []) = "chart"
       /\ exists series,
            datasets (scalar_response Purchases "Purchases" [])
            = Some [mkDataset
                      (metric_name
                         (metric_of (Str.lower "how are we doing?")))
                      series])
      \/ (type (scalar_response Purchases "Purchases" []) = "text"
          /\ exists total,
               text (scalar_response Purchases "Purchases" [])
               = Some (Str.title
                         (metric_name
                            (metric_of (Str.lower "how are we doing?")))
                       ++ " = " ++ Num.format_2f total))).
Proof.
  split; [|split; [|split; [|split]]].
  - apply (proj1 (metric_first_match _)).
    apply contains_occurs. reflexivity.
  - apply (proj1 (proj2 (metric_first_match _))).
    + apply contains_not_occurs. reflexivity.
    + apply contains_occurs. reflexivity.
  - apply (proj1 (proj2 (proj2 (metric_first_match _)))).
    + apply contains_not_occurs. reflexivity.
    + apply contains_not_occurs. reflexivity.
    + apply contains_occurs. reflexivity.
  - apply (proj1 (proj2 (proj2 (proj2 (metric_first_match _))))).
    + apply contains_not_occurs. reflexivity.
    + apply contains_not_occurs. reflexivity.
    + apply contains_not_occurs. reflexivity.
  - apply (proj2 (proj2 (proj2 (proj2
             (metric_first_match "how are we doing?"))))
             (mkdate 2024 5 15) [] None).
    reflexivity.
Defined.

(** C6: for the question "redemptions for rvp alice by fund type" and
    the empty context the router filters on "Alice", sums redemptions,
    groups by fund_type and titles the answer "Redemptions for RVP
    Alice by Fund Type"; in general the title is the title-cased metric
    followed, in this order and each only when set, by "for RVP" and
    the filter value, "(Last Quarter)", and "by" and the title-cased
    dimension name. *)
Theorem title_of_alice_by_fund_type today snapshot :
  rvp_of (Str.lower "redemptions for rvp alice by fund type") (Some [])
  = Some "Alice"
  /\ metric_of (Str.lower "redemptions for rvp alice by fund type")
     = Redemptions
  /\ group_field_of (Str.lower "redemptions for rvp alice by fund type")
     = Some Fund_type
  /\ route_question today snapshot
       "redemptions for rvp alice by fund type" (Some [])
     = Ok (breakdown_response Fund_type Redemptions
             "Redemptions for RVP Alice by Fund Type"
             (filter (fun r => String.eqb (rvp_lower r) "alice") snapshot))
  /\ (forall metric rvp last_quarter group_field,
        Str.join " " (title_bits metric rvp last_quarter group_field)
        = match metric with
          | Redemptions => "Redemptions"
          | Purchases => "Purchases"
          | Assets => "Assets"
          end
          ++ match rvp_set rvp with
             | Some v => " for RVP " ++ v
             | None => ""
             end
          ++ (if last_quarter then " (Last Quarter)" else "")
          ++ match group_field with
             | Some Fund_type => " by Fund Type"
             | Some Wholesaler => " by Wholesaler"
             | Some Advisor => " by Advisor"
             | Some Mandate_name => " by Mandate Name"
             | None => ""
             end).
Proof.
  split; [reflexivity|]. split; [reflexivity|]. split; [reflexivity|].
  split.
  - rewrite route_question_eq. unfold selected_rows, title_of.
    change (Str.lower "redemptions for rvp alice by fund type")
      with "redemptions for rvp alice by fund type".
    change (wants_last_quarter "redemptions for rvp alice by fund type")
      with false.
    change (rvp_of "redemptions for rvp alice by fund type" (Some []))
      with (Some "Alice").
    change (group_field_of "redemptions for rvp alice by fund type")
      with (Some Fund_type).
    change (metric_of "redemptions for rvp alice by fund type")
      with Redemptions.
    reflexivity.
  - intros metric rvp last_quarter group_field. unfold title_bits.
    destruct metric, (rvp_set rvp) as [v|], last_quarter,
      group_field as [[| | |]|]; cbn; rewrite ?append_empty_r;
      reflexivity.
Qed.

(* ================================================================== *)
(** ** The pattern "rvp\s+([a-zA-Z]+)" *)

Lemma span_spec p s :
  s = fst (Str.span p s) ++ snd (Str.span p s)
  /\ all_chars p (fst (Str.span p s)) = true
  /\ stops p (snd (Str.span p s)).
Proof.
  induction s as [|c s (E & A & S)]; simpl; [auto|].
  destruct (p c) eqn:P.
  - destruct (Str.span p s) as [a b]. simpl in *.
    rewrite P, A. repeat split; congruence.
  - simpl. auto.
Qed.

Lemma span_unique p a b :
  all_chars p a = true -> stops p b -> Str.span p (a ++ b) = (a, b).
Proof.
  induction a as [|c a IH]; simpl; intros A S.
  - destruct b as [|c b]; [reflexivity|]. simpl in *. now rewrite S.
  - apply andb_true_iff in A as [P A]. now rewrite P, IH.
Qed.

Lemma alpha_not_space c :
  Str.is_ascii_alpha c = true -> Str.isspace c = false.
Proof.
  destruct c as [[|] [|] [|] [|] [|] [|] [|] [|]];
    vm_compute; congruence.
Qed.

Lemma stops_space_before_word w rest :
  w <> "" -> all_chars Str.is_ascii_alpha w = true ->
  stops Str.isspace (w ++ rest).
Proof.
  destruct w as [|c w]; [congruence|]. simpl.
  intros _ A. apply andb_true_iff in A as [A _].
  now apply alpha_not_space.
Qed.

Lemma match_rvp_iff s w :
  Str.match_rvp s = Some w <-> rvp_mention s w.
Proof.
  unfold Str.match_rvp, rvp_mention. split.
  - destruct (prefix "rvp" s) eqn:P; [|discriminate].
    apply prefix_occurs in P as (t & ->).
    change (Str.skip 3 ("rvp" ++ t)) with t.
    destruct (span_spec Str.isspace t) as (E1 & A1 & _).
    destruct (Str.span Str.isspace t) as [ws r1]. simpl in E1, A1.
    destruct ws as [|c ws]; [discriminate|].
    destruct (span_spec Str.is_ascii_alpha r1) as (E2 & A2 & S2).
    destruct (Str.span Str.is_ascii_alpha r1) as [w' r2].
    simpl in E2, A2, S2.
    destruct w' as [|c' w']; [discriminate|].
    intros [= <-]. exists (String c ws), r2.
    repeat split; try congruence.
  - intros (ws & rest & -> & Nws & Aws & Nw & Aw & S).
    assert (P : prefix "rvp" ("rvp" ++ ws ++ w ++ rest) = true)
      by (apply prefix_occurs; eauto).
    rewrite P.
    change (Str.skip 3 ("rvp" ++ ws ++ w ++ rest)) with (ws ++ w ++ rest).
    cbv iota.
    rewrite (span_unique _ ws (w ++ rest) Aws
               (stops_space_before_word w rest Nw Aw)).
    destruct ws; [congruence|].
    rewrite (span_unique _ w rest Aw S).
    destruct w; [congruence|reflexivity].
Qed.

Lemma search_rvp_leftmost s w :
  Str.search_rvp s = Some w <-> leftmost_rvp_mention s w.
Proof.
  unfold leftmost_rvp_mention. revert w.
  induction s as [|c s IH]; intros w.
  - simpl. split; [discriminate|].
    intros (a & b & E & M & _). destruct a; [|discriminate].
    simpl in E. subst b. apply match_rvp_iff in M. discriminate.
  - cbn [Str.search_rvp].
    destruct (Str.match_rvp (String c s)) as [w0|] eqn:M0.
    + split.
      * intros [= <-]. exists "", (String c s).
        split; [reflexivity|]. split; [now apply match_rvp_iff|].
        simpl. intros; lia.
      * intros (a & b & E & M & L). destruct a as [|c' a].
        -- simpl in E. subst b. apply match_rvp_iff in M. congruence.
        -- exfalso. apply (L "" (String c s) w0 eq_refl); [simpl; lia|].
           now apply match_rvp_iff.
    + rewrite IH. split.
      * intros (a & b & E & M & L). exists (String c a), b.
        split; [simpl; congruence|]. split; [exact M|].
        intros a' b' w' E' Hl. destruct a' as [|c' a'].
        -- simpl in E'. subst b'. rewrite <- match_rvp_iff. congruence.
        -- simpl in E', Hl. injection E' as _ E'.
           apply (L a' b' w' E'). lia.
      * intros (a & b & E & M & L). destruct a as [|c' a].
        -- simpl in E. subst b. apply match_rvp_iff in M. congruence.
        -- simpl in E. injection E as _ E. exists a, b.
           split; [exact E|]. split; [exact M|].
           intros a' b' w' E' Hl.
           apply (L (String c a') b' w'); [simpl; congruence|simpl; lia].
Qed.

Lemma search_rvp_none s :
  Str.search_rvp s = None <->
  forall a b w, s = a ++ b -> ~ rvp_mention b w.
Proof.
  induction s as [|c s IH].
  - simpl. split; [|reflexivity].
    intros _ a b w E M. destruct a; [|discriminate]. simpl in E. subst b.
    apply match_rvp_iff in M. discriminate.
  - cbn [Str.search_rvp].
    destruct (Str.match_rvp (String c s)) as [w0|] eqn:M0.
    + split; [discriminate|]. intros H. exfalso.
      apply (H "" (String c s) w0 eq_refl). now apply match_rvp_iff.
    + rewrite IH. split.
      * intros H a b w E. destruct a as [|c' a].
        -- simpl in E. subst b. rewrite <- match_rvp_iff. congruence.
        -- simpl in E. injection E as _ E. now apply (H a b w).
      * intros H a b w E. apply (H (String c a) b w).
        simpl. congruence.
Qed.

Lemma rvp_of_eq q_low user_ctx :
  rvp_of q_low user_ctx = entity_filter_truthy q_low user_ctx.
Proof.
  unfold rvp_of, entity_filter_truthy.
  destruct (Str.search_rvp q_low); [reflexivity|].
  destruct user_ctx as [[|[k v] d]|]; try reflexivity.
  unfold ctx_truthy, ctx_get, ctx_find, dict_get.
  destruct (dict_find ((k, v) :: d) "rvp"); reflexivity.
Qed.

(** C8, as the specification states it, fails: a context whose [rvp]
    value is the empty string supplies the key, yet its value is not
    used and no filter is set. *)
Lemma entity_filter_skips_empty_context_value :
  Str.search_rvp (Str.lower "total purchases") = None
  /\ ctx_find (Some [("rvp", PStr "")]) "rvp" = Some (PStr "")
  /\ entity_filter_stated (Str.lower "total purchases")
       (Some [("rvp", PStr "")]) = Some ""
  /\ rvp_of (Str.lower "total purchases") (Some [("rvp", PStr "")]) = None
  /\ rvp_of (Str.lower "total purchases") (Some [("rvp", PStr "")])
     <> entity_filter_stated (Str.lower "total purchases")
          (Some [("rvp", PStr "")]).
Proof.
  repeat split; try reflexivity. discriminate.
Qed.

(** C8, amended: for every question and context, if the lowercased
    question contains a match of "rvp", white space and an alphabetic
    token, the entity filter value is the token of the leftmost match,
    title-cased, whatever the context holds; otherwise it is the string
    of the context's [rvp] value provided that value is true (a
    non-empty string, a non-zero number, [True]); otherwise no entity
    filter is set. *)
Theorem entity_filter_question_over_context q user_ctx :
  rvp_of (Str.lower q) user_ctx
  = entity_filter_truthy (Str.lower q) user_ctx
  /\ (forall w, leftmost_rvp_mention (Str.lower q) w ->
        forall ctx', rvp_of (Str.lower q) ctx' = Some (Str.title w))
  /\ ((forall a b w, Str.lower q = a ++ b -> ~ rvp_mention b w) ->
      rvp_of (Str.lower q) user_ctx
      = match ctx_find user_ctx "rvp" with
        | Some v => if truthy v then Some (str v) else None
        | None => None
        end).
Proof.
  split; [apply rvp_of_eq|]. split.
  - intros w L ctx'. apply search_rvp_leftmost in L.
    unfold rvp_of. now rewrite L.
  - intros N. apply search_rvp_none in N.
    rewrite rvp_of_eq. unfold entity_filter_truthy. now rewrite N.
Qed.

Lemma entity_filter_question_over_context_witness :
  rvp_of (Str.lower "Purchases for RVP  bob by advisor")
    (Some [("rvp", PStr "Carol")]) = Some "Bob"
  /\ rvp_of (Str.lower "Purchases by advisor")
       (Some [("rvp", PStr "Carol")]) = Some "Carol".
Proof.
  split.
  - apply (proj1 (proj2 (entity_filter_question_over_context
                           "Purchases for RVP  bob by advisor" None))
             "bob").
    apply search_rvp_leftmost. reflexivity.
  - apply (proj2 (proj2 (entity_filter_question_over_context
                           "Purchases by advisor"
                           (Some [("rvp", PStr "Carol")])))).
    apply search_rvp_none. reflexivity.
Defined.

(* ================================================================== *)
(** ** The entity filter leaves nothing *)

Lemma digits_nonempty n : Num.digits n <> "".
Proof.
  unfold Num.digits, NilZero.string_of_uint.
  destruct (N.to_uint (Z.to_N n)); simpl; discriminate.
Qed.

Lemma truthy_str_nonempty v : truthy v = true -> str v <> "".
Proof.
  destruct v as [|[|]|z|s]; simpl; try discriminate.
  - intros _. unfold Num.str_int.
    destruct (z <? 0); [discriminate|apply digits_nonempty].
  - destruct s; simpl; [discriminate|intros _; discriminate].
Qed.

Lemma rvp_of_nonempty q_low user_ctx v :
  rvp_of q_low user_ctx = Some v -> rvp_set (Some v) = Some v.
Proof.
  unfold rvp_of, rvp_set.
  destruct (Str.search_rvp q_low) as [w|] eqn:S.
  - apply search_rvp_leftmost in S as (a & b & _ & M & _).
    destruct M as (ws & rest & _ & _ & _ & Nw & _).
    intros [= E]. subst v. destruct w; [congruence|reflexivity].
  - destruct (ctx_truthy user_ctx && truthy (ctx_get user_ctx "rvp"))
      eqn:T; [|discriminate].
    apply andb_true_iff in T as [_ T]. intros [= <-].
    apply truthy_str_nonempty in T.
    destruct (str (ctx_get user_ctx "rvp")); [congruence|reflexivity].
Qed.

Lemma filter_none {A} (f : A -> bool) l :
  (forall x, In x l -> f x = false) -> filter f l = [].
Proof.
  induction l as [|x l IH]; intros H; simpl; [reflexivity|].
  rewrite (H x (or_introl eq_refl)). apply IH. intros y Hy.
  apply H. now right.
Qed.

Lemma selected_rows_unmatched today snapshot q_low user_ctx v :
  clock_ok today = true ->
  rvp_of q_low user_ctx = Some v ->
  (forall r, In r snapshot -> rvp_lower r <> Str.lower v) ->
  selected_rows today snapshot q_low user_ctx = Ok [].
Proof.
  intros C R N. unfold selected_rows, filter_rvp.
  rewrite R, (rvp_of_nonempty _ _ _ R).
  rewrite filter_none
    by (intros r Hr; apply String.eqb_neq; now apply N).
  destruct (wants_last_quarter q_low); [|reflexivity].
  destruct (parse_last_quarter_today today C) as [w ->]. reflexivity.
Qed.

(** X18: on a dataset with at least one row, whenever the entity filter
    value of a request equals no row's [rvp] after lower-casing both,
    the request returns a response and raises nothing: with a grouping
    the chart has no label and an empty series, so has the monthly
    chart of a trend question, and otherwise the text reports 0.00. *)
Theorem unmatched_filter_gives_empty_result today snapshot q user_ctx v :
  clock_ok today = true ->
  snapshot <> [] ->
  rvp_of (Str.lower q) user_ctx = Some v ->
  (forall r, In r snapshot -> rvp_lower r <> Str.lower v) ->
  route_question_loaded today snapshot q user_ctx
  = Ok (match group_field_of (Str.lower q) with
        | Some _ =>
            chart (title_of (Str.lower q) user_ctx) []
              (metric_of (Str.lower q)) []
        | None =>
            if wants_trend (Str.lower q)
            then chart (title_of (Str.lower q) user_ctx ++ " (Monthly)") []
                   (metric_of (Str.lower q)) []
            else mkAskResponse "text"
                   (Some (title_of (Str.lower q) user_ctx))
                   (Some (Str.title (metric_name (metric_of (Str.lower q)))
                          ++ " = 0.00"))
                   None None None
        end).
Proof.
  intros C NE R N.
  rewrite (route_question_loaded_nonempty _ _ _ _ NE).
  rewrite route_question_eq,
    (selected_rows_unmatched today snapshot _ user_ctx v C R N).
  cbn [bind].
  destruct (group_field_of (Str.lower q)); [reflexivity|].
  destruct (wants_trend (Str.lower q)); reflexivity.
Qed.

Lemma unmatched_filter_gives_empty_result_witness :
  route_question_loaded (mkdate 2024 5 15)
    [mkRow (mkdate 2024 1 10) 10 0 0 "W1" "A1" "M1" "Equity" "Alice";
     mkRow (mkdate 2024 2 10) 20 0 0 "W2" "A1" "M1" "Bond" "Bob"]
    "assets trend last quarter" (Some [("rvp", PStr "Zed")])
  = Ok (chart "Assets for RVP Zed (Last Quarter) (Monthly)" [] Assets []).
Proof.
  apply (unmatched_filter_gives_empty_result (mkdate 2024 5 15)
           [mkRow (mkdate 2024 1 10) 10 0 0 "W1" "A1" "M1" "Equity" "Alice";
            mkRow (mkdate 2024 2 10) 20 0 0 "W2" "A1" "M1" "Bond" "Bob"]
           "assets trend last quarter" (Some [("rvp", PStr "Zed")]) "Zed").
  - reflexivity.
  - discriminate.
  - reflexivity.
  - intros r [<-|[<-|[]]]; discriminate.
Defined.

(** C9 fails on the dataset without rows, where every filter value
    matches no row: the trend question raises [TypeError] from
    [resample] and the question about the last quarter raises
    [AttributeError] from [.dt], where the claim has a chart with an
    empty series and a text reporting 0.00; the total without the
    window, which tests [df.empty], is reported as the claim says. *)
Theorem unmatched_filter_on_empty_dataset_raises :
  rvp_of (Str.lower "purchases trend for rvp zed") None = Some "Zed"
  /\ (forall r : Row, In r [] -> rvp_lower r <> Str.lower "Zed")
  /\ route_question_loaded (mkdate 2024 5 15) []
       "purchases trend for rvp zed" None
     = Raise TypeError
  /\ route_question_loaded (mkdate 2024 5 15) []
       "purchases for rvp zed last quarter" None
     = Raise AttributeError
  /\ route_question_loaded (mkdate 2024 5 15) []
       "purchases for rvp zed" None
     = Ok (mkAskResponse "text" (Some "Purchases for RVP Zed")
             (Some "Purchases = 0.00") None None None).
Proof.
  split; [reflexivity|]. split; [intros r []|].
  split; [reflexivity|]. split; reflexivity.
Qed.

(* ================================================================== *)
(** ** Monthly resampling *)

Lemma Zrange_In lo n m :
  In m (Frame.Zrange lo n) <-> lo <= m < lo + Z.of_nat n.
Proof.
  unfold Frame.Zrange. rewrite in_map_iff. split.
  - intros (k & <- & H). apply in_seq in H. lia.
  - intros H. exists (Z.to_nat (m - lo)). split; [lia|].
    apply in_seq. lia.
Qed.

Lemma Zrange_from_sorted lo s n :
  StronglySorted Z.lt (map (fun k => lo + Z.of_nat k) (seq s n)).
Proof.
  revert s. induction n as [|n IH]; intros s; simpl; constructor.
  - apply IH.
  - apply Forall_forall. intros m H. apply in_map_iff in H.
    destruct H as (k & <- & H). apply in_seq in H. lia.
Qed.

Lemma Zrange_sorted lo n : StronglySorted Z.lt (Frame.Zrange lo n).
Proof. apply Zrange_from_sorted. Qed.

Lemma fold_min_spec i rest :
  In (fold_right Z.min i rest) (i :: rest)
  /\ forall x, In x (i :: rest) -> fold_right Z.min i rest <= x.
Proof.
  induction rest as [|y rest (I & L)]; simpl.
  - split; [auto|]. intros x [<-|[]]. lia.
  - split.
    + destruct (Z.min_spec y (fold_right Z.min i rest)) as [[_ ->]|[_ ->]];
        simpl in I; tauto.
    + intros x [<-|[<-|H]].
      * specialize (L i (or_introl eq_refl)). lia.
      * lia.
      * specialize (L x (or_intror H)). lia.
Qed.

Lemma fold_max_spec i rest :
  In (fold_right Z.max i rest) (i :: rest)
  /\ forall x, In x (i :: rest) -> x <= fold_right Z.max i rest.
Proof.
  induction rest as [|y rest (I & L)]; simpl.
  - split; [auto|]. intros x [<-|[]]. lia.
  - split.
    + destruct (Z.max_spec y (fold_right Z.max i rest)) as [[_ ->]|[_ ->]];
        simpl in I; tauto.
    + intros x [<-|[<-|H]].
      * specialize (L i (or_introl eq_refl)). lia.
      * lia.
      * specialize (L x (or_intror H)). lia.
Qed.

Lemma resample_values val df :
  map snd (Frame.resample_month_sum val df)
  = map (fun m =>
           Frame.sum_where val
             (fun r => Frame.month_index (r_date r) =? m) df)
        (map fst (Frame.resample_month_sum val df)).
Proof.
  unfold Frame.resample_month_sum.
  destruct (map _ df); [reflexivity|].
  rewrite !map_map. reflexivity.
Qed.

Lemma resample_months val df :
  StronglySorted Z.lt (map fst (Frame.resample_month_sum val df))
  /\ months_spanned df (map fst (Frame.resample_month_sum val df)).
Proof.
  unfold Frame.resample_month_sum, months_spanned.
  destruct (map (fun r => Frame.month_index (r_date r)) df)
    as [|i rest] eqn:E.
  - split; [constructor|]. intros m. split; [intros []|].
    intros (r1 & _ & H & _). destruct df; [destruct H|discriminate].
  - rewrite map_map. cbn [fst]. rewrite map_id.
    split; [apply Zrange_sorted|].
    destruct (fold_min_spec i rest) as (Imin & Lmin).
    destruct (fold_max_spec i rest) as (Imax & Lmax).
    set (lo := fold_right Z.min i rest) in *.
    set (hi := fold_right Z.max i rest) in *.
    assert (lo <= hi) by (apply Lmin; exact Imax).
    intros m. rewrite Zrange_In, Z2Nat.id by lia.
    rewrite <- E in Imin, Imax, Lmin, Lmax. split.
    + intros H'. apply in_map_iff in Imin as (r1 & E1 & I1).
      apply in_map_iff in Imax as (r2 & E2 & I2).
      exists r1, r2. repeat split; try assumption; lia.
    + intros (r1 & r2 & I1 & I2 & H').
      assert (lo <= Frame.month_index (r_date r1))
        by (apply Lmin, in_map_iff; eauto).
      assert (Frame.month_index (r_date r2) <= hi)
        by (apply Lmax, in_map_iff; eauto).
      lia.
Qed.

Lemma monthly_response_spec metric ttl df :
  monthly_chart months_spanned metric ttl df
    (monthly_response metric ttl df).
Proof.
  destruct (resample_months (metric_col metric) df) as (S & B).
  split; [reflexivity|]. split; [reflexivity|].
  exists (map fst (Frame.resample_month_sum (metric_col metric) df)).
  split; [|split; [|split; assumption]].
  - unfold monthly_response, chart. cbn [labels].
    now rewrite map_map.
  - unfold monthly_response, chart. cbn [datasets]. do 3 f_equal.
    rewrite <- (map_map snd Num.round2), resample_values, !map_map.
    reflexivity.
Qed.

Lemma group_field_of_none q_low :
  ~ occurs "by fund type" q_low -> ~ occurs "by wholesaler" q_low ->
  ~ occurs "by advisor" q_low -> ~ occurs "by mandate" q_low ->
  group_field_of q_low = None.
Proof.
  rewrite <- !contains_not_occurs. unfold group_field_of.
  intros -> -> -> H. rewrite H. cbn [orb].
  destruct (Str.contains "by mandate name" q_low) eqn:E; [|reflexivity].
  exfalso. apply contains_occurs in E as (a & b & ->).
  assert (O : occurs "by mandate" (a ++ "by mandate name" ++ b))
    by (exists a, (" name" ++ b); reflexivity).
  apply contains_occurs in O. congruence.
Qed.

(** C2, as the specification states it, fails: with rows in January and
    March 2024 only, the monthly chart has a bucket for February as
    well, so its labels are not the months present in the rows. *)
Lemma monthly_trend_fills_gaps :
  let r1 := mkRow (mkdate 2024 1 10) 10 0 0 "W1" "A1" "M1" "Equity" "Alice" in
  let r2 := mkRow (mkdate 2024 3 10) 20 0 0 "W2" "A1" "M1" "Bond" "Bob" in
  route_question_loaded (mkdate 2024 5 15) [r1; r2] "purchases trend" None
  = Ok (chart "Purchases (Monthly)" ["2024-01"; "2024-02"; "2024-03"]
          Purchases [10; 0; 20]%Q)
  /\ ~ trend_contract months_present (mkdate 2024 5 15) [r1; r2]
         "purchases trend" None.
Proof.
  intros r1 r2. split; [reflexivity|].
  intros (resp & df & R & D & _ & _ & months & L & _ & _ & B).
  vm_compute in R. vm_compute in D.
  injection R as <-. injection D as <-.
  cbn [labels] in L. injection L as L.
  destruct months as [|a [|b months]]; try discriminate L.
  injection L as _ Eb _.
  destruct (proj1 (B b) (or_intror (or_introl eq_refl)))
    as (r & [<-|[<-|[]]] & <-); vm_compute in Eb; discriminate Eb.
Qed.

(** C2, amended: on a dataset with at least one row, when the question
    has no grouping phrase and has a trend phrase, the answer is a
    chart titled with the suffix " (Monthly)" whose labels, formatted
    YYYY-MM and in chronological order, are all the calendar months
    from the month of the earliest selected row to the month of the
    latest one, and whose series holds the rounded sum of the metric
    for each of these months; a month in that range without any row
    gets the sum 0. *)
Theorem monthly_trend_spans_months today snapshot q user_ctx :
  clock_ok today = true ->
  snapshot <> [] ->
  ~ occurs "by fund type" (Str.lower q) ->
  ~ occurs "by wholesaler" (Str.lower q) ->
  ~ occurs "by advisor" (Str.lower q) ->
  ~ occurs "by mandate" (Str.lower q) ->
  occurs "trend" (Str.lower q) \/ occurs "over time" (Str.lower q)
  \/ occurs "by month" (Str.lower q) ->
  trend_contract months_spanned today snapshot q user_ctx
  /\ forall df m,
       (forall r, In r df -> Frame.month_index (r_date r) <> m) ->
       Num.round2 (month_total (metric_of (Str.lower q)) df m) = 0%Q.
Proof.
  intros C NE G1 G2 G3 G4 T. split.
  - destruct (selected_rows_ok today snapshot (Str.lower q) user_ctx C)
      as (df & D & _).
    exists (monthly_response (metric_of (Str.lower q))
              (title_of (Str.lower q) user_ctx) df), df.
    split; [|split; [exact D|apply monthly_response_spec]].
    rewrite (route_question_loaded_nonempty _ _ _ _ NE).
    rewrite route_question_eq, D. cbn [bind].
    now rewrite (group_field_of_none _ G1 G2 G3 G4),
      (wants_trend_true _ T).
  - intros df m N. unfold month_total, Frame.sum_where.
    rewrite filter_none; [reflexivity|].
    intros r Hr. apply Z.eqb_neq. now apply N.
Qed.

Lemma monthly_trend_spans_months_witness :
  trend_contract months_spanned (mkdate 2024 5 15)
    [mkRow (mkdate 2024 1 10) 10 0 0 "W1" "A1" "M1" "Equity" "Alice";
     mkRow (mkdate 2024 3 10) 20 0 0 "W2" "A1" "M1" "Bond" "Bob"]
    "Purchases over time" None
  /\ forall df m,
       (forall r, In r df -> Frame.month_index (r_date r) <> m) ->
       Num.round2
         (month_total (metric_of (Str.lower "Purchases over time")) df m)
       = 0%Q.
Proof.
  apply monthly_trend_spans_months.
  - reflexivity.
  - discriminate.
  - apply contains_not_occurs. reflexivity.
  - apply contains_not_occurs. reflexivity.
  - apply contains_not_occurs. reflexivity.
  - apply contains_not_occurs. reflexivity.
  - right. left. apply contains_occurs. reflexivity.
Defined.

(* ================================================================== *)
(** ** Rounding, formatting and sums *)

Lemma round_half_even_comp x y :
  (x == y)%Q -> Num.round_half_even x = Num.round_half_even y.
Proof.
  intros E. unfold Num.round_half_even.
  rewrite (Qfloor_comp _ _ E).
  assert (E' : (x - inject_Z (Qfloor y) == y - inject_Z (Qfloor y))%Q)
    by (rewrite E; reflexivity).
  rewrite (Qcompare_comp _ _ E' _ _ (Qeq_refl (1 # 2))). reflexivity.
Qed.

Lemma round_half_even_Z z : Num.round_half_even (inject_Z z) = z.
Proof.
  unfold Num.round_half_even. rewrite Qfloor_Z.
  assert (E : (inject_Z z - inject_Z z == 0)%Q) by ring.
  rewrite (Qcompare_comp _ _ E _ _ (Qeq_refl (1 # 2))). reflexivity.
Qed.

Lemma cents_comp x y : (x == y)%Q -> Num.cents x = Num.cents y.
Proof.
  intros E. apply round_half_even_comp. now rewrite E.
Qed.

Lemma cents_whole z : Num.cents (z # 100) = z.
Proof.
  unfold Num.cents. rewrite <- (round_half_even_Z z) at 2.
  apply round_half_even_comp.
  unfold Qeq. simpl. lia.
Qed.

Lemma sign_comp x y : (x == y)%Q -> (Qnum x <? 0) = (Qnum y <? 0).
Proof.
  unfold Qeq. intros E.
  destruct (Z.ltb_spec (Qnum x) 0), (Z.ltb_spec (Qnum y) 0);
    try reflexivity; nia.
Qed.

Lemma format_2f_comp x y : (x == y)%Q -> Num.format_2f x = Num.format_2f y.
Proof.
  intros E. unfold Num.format_2f.
  now rewrite (cents_comp _ _ E), (sign_comp _ _ E).
Qed.

Lemma round2_whole x : whole_cents x -> (Num.round2 x == x)%Q.
Proof.
  intros (z & E). unfold Num.round2.
  rewrite Qred_correct, (cents_comp _ _ E), cents_whole, E.
  unfold Qeq. simpl. lia.
Qed.

Lemma sum_perm l l' : Permutation l l' -> (Num.sum l == Num.sum l')%Q.
Proof.
  induction 1; simpl.
  - reflexivity.
  - now rewrite IHPermutation.
  - ring.
  - now rewrite IHPermutation1.
Qed.

Lemma sum_map_ext {A} (f g : A -> Q) l :
  (forall x, In x l -> (f x == g x)%Q) ->
  (Num.sum (map f l) == Num.sum (map g l))%Q.
Proof.
  induction l as [|x l IH]; intros H; simpl; [reflexivity|].
  rewrite (H x (or_introl eq_refl)), IH; [reflexivity|].
  intros y Hy. apply H. now right.
Qed.

Lemma sum_map_plus {A} (f g : A -> Q) l :
  (Num.sum (map (fun x => f x + g x) l)
   == Num.sum (map f l) + Num.sum (map g l))%Q.
Proof.
  induction l as [|x l IH]; simpl; [ring|]. rewrite IH. ring.
Qed.

Lemma sum_indicator_absent c v ks :
  ~ In c ks ->
  (Num.sum (map (fun k => if String.eqb c k then v else 0) ks) == 0)%Q.
Proof.
  induction ks as [|k ks IH]; intros N; simpl; [reflexivity|].
  destruct (String.eqb_spec c k) as [->|_].
  - elim N. now left.
  - rewrite IH; [ring|]. intros H. apply N. now right.
Qed.

Lemma sum_indicator c v ks :
  NoDup ks -> In c ks ->
  (Num.sum (map (fun k => if String.eqb c k then v else 0) ks) == v)%Q.
Proof.
  induction 1 as [|k ks N ND IH]; intros I; [destruct I|]. simpl.
  destruct (String.eqb_spec c k) as [->|N'].
  - rewrite sum_indicator_absent by assumption. ring.
  - destruct I as [->|I]; [congruence|]. rewrite IH by assumption. ring.
Qed.

Lemma sum_where_cons val p r df :
  (Frame.sum_where val p (r :: df)
   == (if p r then val r else 0) + Frame.sum_where val p df)%Q.
Proof.
  unfold Frame.sum_where. simpl. destruct (p r); simpl; ring.
Qed.

Lemma group_totals_add_up col val ks df :
  NoDup ks -> (forall r, In r df -> In (col r) ks) ->
  (Num.sum
     (map (fun k =>
             Frame.sum_where val (fun r => String.eqb (col r) k) df) ks)
   == Num.sum (map val df))%Q.
Proof.
  intros ND. induction df as [|r df IH]; intros H.
  - clear ND H. induction ks as [|k ks IHk]; [reflexivity|].
    cbn [map Num.sum fold_right] in *. rewrite IHk.
    unfold Frame.sum_where. simpl. ring.
  - rewrite (sum_map_ext _
               (fun k => (if String.eqb (col r) k then val r else 0)
                         + Frame.sum_where val
                             (fun r => String.eqb (col r) k) df)%Q)
      by (intros; apply sum_where_cons).
    rewrite sum_map_plus, sum_indicator, IH.
    + reflexivity.
    + intros r' Hr'. apply H. now right.
    + exact ND.
    + apply H. now left.
Qed.

Lemma whole_cents_sum l :
  Forall whole_cents l -> whole_cents (Num.sum l).
Proof.
  induction 1 as [|x l (z & E) _ (z' & E')]; simpl.
  - exists 0. reflexivity.
  - exists (z + z'). rewrite E, E'. unfold Qeq. simpl. lia.
Qed.

Lemma sum_round2_whole l :
  Forall whole_cents l -> (Num.sum (map Num.round2 l) == Num.sum l)%Q.
Proof.
  induction 1 as [|x l W _ IH]; simpl; [reflexivity|].
  now rewrite IH, (round2_whole x W).
Qed.

Lemma groupby_sum_adds_up col val df :
  (Num.sum (map snd (Frame.groupby_sum col val df))
   == Num.sum (map val df))%Q.
Proof.
  unfold Frame.groupby_sum. rewrite map_map. cbn [snd].
  apply group_totals_add_up.
  - apply group_keys_NoDup.
  - intros r Hr. apply group_keys_In. eauto.
Qed.

Lemma groupby_sum_whole_cents col val df :
  (forall r, In r df -> whole_cents (val r)) ->
  Forall whole_cents (map snd (Frame.groupby_sum col val df)).
Proof.
  intros W. unfold Frame.groupby_sum. rewrite map_map. cbn [snd].
  apply Forall_forall. intros x Hx. apply in_map_iff in Hx.
  destruct Hx as (k & <- & _). apply whole_cents_sum.
  apply Forall_forall. intros y Hy. apply in_map_iff in Hy.
  destruct Hy as (r & <- & Hr). apply filter_In in Hr. now apply W.
Qed.

Lemma breakdown_series_sum g metric ttl df :
  (forall r, In r df -> whole_cents (metric_col metric r)) ->
  exists series,
    datasets (breakdown_response g metric ttl df)
    = Some [mkDataset (metric_name metric) series]
    /\ (Num.sum series == Num.sum (map (metric_col metric) df))%Q.
Proof.
  intros W. eexists. split; [reflexivity|].
  set (agg0 := Frame.groupby_sum (dimension_col g) (metric_col metric) df).
  assert (P : Permutation (map snd (Frame.sort_values_desc agg0))
                (map snd agg0))
    by apply Permutation_map, sort_values_desc_perm.
  rewrite <- (map_map snd Num.round2).
  rewrite sum_round2_whole.
  - rewrite (sum_perm _ _ P). apply groupby_sum_adds_up.
  - eapply Permutation_Forall; [symmetry; exact P|].
    now apply groupby_sum_whole_cents.
Qed.

Lemma selected_rows_same today snapshot q1 q2 user_ctx :
  same_selection q1 q2 user_ctx ->
  selected_rows today snapshot (Str.lower q1) user_ctx
  = selected_rows today snapshot (Str.lower q2) user_ctx.
Proof.
  intros (_ & R & W). unfold selected_rows. now rewrite R, W.
Qed.

(** C3, as the specification states it, fails: each group sum is
    rounded to two decimals before it enters the series, the total is
    rounded once, and the two roundings differ: 10.004 and 20.004 give
    the series 20.0, 10.0, whose sum is 30.00, and the text 30.01. *)
Lemma rounded_series_misses_total :
  let r1 := mkRow (mkdate 2024 1 10) (2501 # 250) 0 0
              "W1" "A1" "M1" "Equity" "Alice" in
  let r2 := mkRow (mkdate 2024 2 10) (5001 # 250) 0 0
              "W2" "A1" "M1" "Bond" "Bob" in
  same_selection "purchases by wholesaler" "purchases" None
  /\ route_question_loaded (mkdate 2024 5 15) [r1; r2]
       "purchases by wholesaler" None
     = Ok (chart "Purchases by Wholesaler" ["W2"; "W1"] Purchases
             [20; 10]%Q)
  /\ route_question_loaded (mkdate 2024 5 15) [r1; r2] "purchases" None
     = Ok (mkAskResponse "text" (Some "Purchases")
             (Some "Purchases = 30.01") None None None)
  /\ ~ roundtrip_contract (mkdate 2024 5 15) [r1; r2]
         "purchases by wholesaler" "purchases" None.
Proof.
  intros r1 r2. split; [repeat split|]. split; [reflexivity|].
  split; [reflexivity|].
  intros (rc & rt & R1 & R2 & series & D & T).
  vm_compute in R1. vm_compute in R2.
  injection R1 as <-. injection R2 as <-.
  cbn [datasets] in D. injection D as <-.
  vm_compute in T. discriminate T.
Qed.

Lemma whole_amount_cents x : whole_amount x -> whole_cents x.
Proof.
  intros (z & ->). exists (100 * z).
  unfold Qeq, inject_Z. cbn [Qnum Qden]. lia.
Qed.

(** C3, amended: on a dataset with at least one row, for two questions
    that select the same metric, entity filter and time window, one
    with a grouping and one with neither grouping nor trend: when every
    value of the metric in the selected rows is a whole number and
    their absolute values, times 100, add up to less than 2^53 (the
    amounts on which the column arithmetic is exact), the text of the
    second answer reports exactly the sum of the series of the first
    answer's chart. *)
Theorem chart_series_sums_to_text today snapshot q_grouped q_plain
  user_ctx g :
  clock_ok today = true ->
  snapshot <> [] ->
  group_field_of (Str.lower q_grouped) = Some g ->
  group_field_of (Str.lower q_plain) = None ->
  wants_trend (Str.lower q_plain) = false ->
  same_selection q_grouped q_plain user_ctx ->
  (forall df,
     selected_rows today snapshot (Str.lower q_plain) user_ctx = Ok df ->
     exact_amounts (metric_col (metric_of (Str.lower q_plain))) df) ->
  roundtrip_contract today snapshot q_grouped q_plain user_ctx.
Proof.
  intros C NE G1 G2 T2 S W.
  destruct (selected_rows_ok today snapshot (Str.lower q_plain) user_ctx C)
    as (df & D & _).
  pose proof (selected_rows_same today snapshot _ _ user_ctx S) as D1.
  destruct S as (M & _ & _).
  destruct (breakdown_series_sum g (metric_of (Str.lower q_plain))
              (title_of (Str.lower q_grouped) user_ctx) df
              (fun r Hr => whole_amount_cents _ (proj1 (W df D) r Hr)))
    as (series & Hs & E).
  do 2 eexists. split; [|split].
  - rewrite (route_question_loaded_nonempty _ _ _ _ NE).
    rewrite route_question_eq, D1, D, G1, M. reflexivity.
  - rewrite (route_question_loaded_nonempty _ _ _ _ NE).
    rewrite route_question_eq, D, G2, T2. reflexivity.
  - exists series. split; [exact Hs|].
    unfold scalar_response. cbn [text].
    now rewrite (format_2f_comp _ _ E).
Qed.

Lemma chart_series_sums_to_text_witness :
  roundtrip_contract (mkdate 2024 5 15)
    [mkRow (mkdate 2024 1 10) 1001 0 0 "W1" "A1" "M1" "Equity" "Al";
     mkRow (mkdate 2024 2 10) 250 0 0 "W2" "A1" "M1" "Bond" "Bob";
     mkRow (mkdate 2024 3 10) 175 0 0 "W1" "A1" "M1" "Bond" "Bob"]
    "Purchases by wholesaler" "Purchases" None.
Proof.
  apply (chart_series_sums_to_text _ _ _ _ _ Wholesaler).
  - reflexivity.
  - discriminate.
  - reflexivity.
  - reflexivity.
  - reflexivity.
  - repeat split.
  - intros df [= <-]. split.
    + intros r [<-|[<-|[<-|[]]]].
      * exists 1001. reflexivity.
      * exists 250. reflexivity.
      * exists 175. reflexivity.
    + reflexivity.
Defined.

(* ================================================================== *)
(** * Further properties of the code *)

(** ** [parse_last_quarter] *)

Lemma quarter_index_mono a b :
  1 <= month a <= 12 -> 1 <= month b <= 12 ->
  date_leb a b = true -> quarter_index a <= quarter_index b.
Proof.
  intros Ha Hb L. apply date_leb_le in L. unfold quarter_index.
  Z.div_mod_to_equations. lia.
Qed.

Lemma date_ltb_total a b : date_leb a b = false -> date_ltb b a = true.
Proof.
  intros N. apply date_ltb_lt.
  destruct (date_leb b a) eqn:L.
  - apply date_leb_le in L.
    assert (~ (year a < year b
               \/ (year a = year b
                   /\ (month a < month b
                       \/ (month a = month b /\ day a <= day b)))))
      by (rewrite <- date_leb_le; congruence).
    lia.
  - assert (~ (year a < year b
               \/ (year a = year b
                   /\ (month a < month b
                       \/ (month a = month b /\ day a <= day b)))))
      by (rewrite <- date_leb_le; congruence).
    lia.
Qed.

Lemma parse_last_quarter_covers today ref s e :
  valid_date ref = true ->
  parse_last_quarter today (Some ref) = Ok (s, e) ->
  covers_quarter (s, e) (quarter_index ref - 1).
Proof.
  intros V H. pose proof (valid_date_bounds _ V) as (_ & Hm & _).
  destruct (first_quarter_of_minyear ref) eqn:F.
  - rewrite (parse_last_quarter_minyear today ref V F) in H. discriminate.
  - rewrite (parse_last_quarter_value today ref V F) in H.
    injection H as <- <-. rewrite (quarter_index_ref ref Hm).
    apply quarter_window_covers.
    + now apply lq_year_range.
    + now apply lq_start_month_in.
Qed.

Lemma days_of_closing_month y m d :
  1 <= d <= days_in_month y m ->
  (m = 3 -> d <= 31) /\ (m = 6 -> d <= 30) /\ (m = 9 -> d <= 30)
  /\ (m = 12 -> d <= 31).
Proof.
  intros H. repeat split; intros ->; cbn in H; lia.
Qed.

Lemma window_just_before today ref s e :
  valid_date ref = true ->
  parse_last_quarter today (Some ref) = Ok (s, e) ->
  date_ltb e ref = true
  /\ forall d, valid_date d = true ->
       date_ltb e d = true -> date_leb d ref = true ->
       quarter_index d = quarter_index ref.
Proof.
  intros V H. pose proof (valid_date_bounds _ V) as (_ & Hm & _).
  destruct (first_quarter_of_minyear ref) eqn:F.
  { rewrite (parse_last_quarter_minyear today ref V F) in H. discriminate. }
  rewrite (parse_last_quarter_value today ref V F) in H.
  injection H as <- <-.
  destruct (lq_start_month_cases ref Hm) as
    [(M & -> & ->)|[(M & -> & ->)|[(M & -> & ->)|(M & -> & ->)]]];
    (split;
     [apply date_ltb_lt; cbn [year month day]; lia
     |intros d Vd L1 L2;
      apply valid_date_bounds in Vd as (_ & Hmd & Hd);
      apply days_of_closing_month in Hd;
      apply date_ltb_lt in L1; apply date_leb_le in L2;
      cbn in L1; unfold quarter_index;
      Z.div_mod_to_equations; lia]).
Qed.

Lemma first_quarter_of_minyear_iff ref :
  first_quarter_of_minyear ref = true <-> year ref = 1 /\ month ref <= 3.
Proof.
  unfold first_quarter_of_minyear, MINYEAR.
  now rewrite andb_true_iff, Z.eqb_eq, Z.leb_le.
Qed.

(** X1: for every reference date [parse_last_quarter] raises
    [ValueError] exactly when the date lies in January to March of
    year 1, never raises [KeyError] (the dict literals are read only
    under their own key tests), and returns a pair otherwise. *)
Theorem parse_last_quarter_raises_only_before_year_one today ref :
  valid_date ref = true ->
  (parse_last_quarter today (Some ref) = Raise ValueError
   <-> year ref = 1 /\ month ref <= 3)
  /\ parse_last_quarter today (Some ref) <> Raise KeyError
  /\ (~ (year ref = 1 /\ month ref <= 3) ->
      exists w, parse_last_quarter today (Some ref) = Ok w).
Proof.
  intros V. rewrite <- first_quarter_of_minyear_iff.
  destruct (first_quarter_of_minyear ref) eqn:F.
  - rewrite (parse_last_quarter_minyear today ref V F).
    repeat split; try discriminate; try tauto.
  - rewrite (parse_last_quarter_value today ref V F).
    repeat split; try discriminate. eauto.
Qed.

Lemma parse_last_quarter_raises_only_before_year_one_witness :
  (parse_last_quarter (mkdate 2024 5 15) (Some (mkdate 1 3 31))
   = Raise ValueError
   <-> year (mkdate 1 3 31) = 1 /\ month (mkdate 1 3 31) <= 3)
  /\ parse_last_quarter (mkdate 2024 5 15) (Some (mkdate 1 3 31))
     <> Raise KeyError
  /\ (~ (year (mkdate 1 3 31) = 1 /\ month (mkdate 1 3 31) <= 3) ->
      exists w,
        parse_last_quarter (mkdate 2024 5 15) (Some (mkdate 1 3 31))
        = Ok w).
Proof.
  apply parse_last_quarter_raises_only_before_year_one. reflexivity.
Defined.

Lemma parse_last_quarter_by_quarter today today' ref ref' :
  year ref = year ref' ->
  (month ref - 1) / 3 = (month ref' - 1) / 3 ->
  parse_last_quarter today (Some ref)
  = parse_last_quarter today' (Some ref').
Proof.
  intros Y Q. unfold parse_last_quarter.
  assert (E1 : lq_year ref = lq_year ref')
    by (unfold lq_year, lq_q; now rewrite Y, Q).
  assert (E2 : lq_start_month ref = lq_start_month ref')
    by (unfold lq_start_month, lq_last_q, lq_q; now rewrite Q).
  now rewrite E1, E2.
Qed.

(** X2: the window depends on the reference date only through its
    year and its quarter: two dates of the same quarter get the same
    result, with an explicit reference date and with today's date. *)
Theorem parse_last_quarter_same_within_quarter today today' ref ref' :
  year ref = year ref' ->
  (month ref - 1) / 3 = (month ref' - 1) / 3 ->
  parse_last_quarter today (Some ref)
  = parse_last_quarter today' (Some ref')
  /\ parse_last_quarter ref None = parse_last_quarter ref' None.
Proof.
  intros Y Q. split.
  - now apply parse_last_quarter_by_quarter.
  - change (parse_last_quarter ref (Some ref)
            = parse_last_quarter ref' (Some ref')).
    now apply parse_last_quarter_by_quarter.
Qed.

Lemma parse_last_quarter_same_within_quarter_witness :
  parse_last_quarter (mkdate 2024 5 15) (Some (mkdate 2024 4 1))
  = parse_last_quarter (mkdate 2030 1 1) (Some (mkdate 2024 6 30))
  /\ parse_last_quarter (mkdate 2024 4 1) None
     = parse_last_quarter (mkdate 2024 6 30) None.
Proof.
  apply parse_last_quarter_same_within_quarter; reflexivity.
Defined.

(** X3: a returned window ends strictly before the reference date,
    does not contain it, and every date after its end up to the
    reference date lies in the quarter of the reference date: the
    window is the last full quarter, with nothing skipped. *)
Theorem last_quarter_ends_just_before_reference_quarter today ref s e :
  valid_date ref = true ->
  parse_last_quarter today (Some ref) = Ok (s, e) ->
  date_ltb e ref = true
  /\ in_window (s, e) ref = false
  /\ forall d, valid_date d = true ->
       date_ltb e d = true -> date_leb d ref = true ->
       quarter_index d = quarter_index ref.
Proof.
  intros V H.
  destruct (window_just_before today ref s e V H) as (L & A).
  split; [exact L|]. split; [|exact A].
  unfold in_window. cbn [fst snd].
  destruct (date_leb ref e) eqn:E; [|apply andb_false_r].
  apply date_leb_le in E. apply date_ltb_lt in L. lia.
Qed.

Lemma last_quarter_ends_just_before_reference_quarter_witness :
  date_ltb (mkdate 2023 12 31) (mkdate 2024 1 15) = true
  /\ in_window (mkdate 2023 10 1, mkdate 2023 12 31) (mkdate 2024 1 15)
     = false
  /\ forall d, valid_date d = true ->
       date_ltb (mkdate 2023 12 31) d = true ->
       date_leb d (mkdate 2024 1 15) = true ->
       quarter_index d = quarter_index (mkdate 2024 1 15).
Proof.
  apply (last_quarter_ends_just_before_reference_quarter
           (mkdate 2026 11 3) (mkdate 2024 1 15)); reflexivity.
Defined.

(** X4: applying [parse_last_quarter] to the start of a returned
    window gives the quarter two before the reference date's, and that
    window ends on the day before the first one starts: no date lies
    between them. *)
Theorem last_quarter_of_window_start_is_adjacent today ref s e s' e' :
  valid_date ref = true ->
  parse_last_quarter today (Some ref) = Ok (s, e) ->
  parse_last_quarter today (Some s) = Ok (s', e') ->
  covers_quarter (s', e') (quarter_index ref - 2)
  /\ date_ltb e' s = true
  /\ forall d, valid_date d = true ->
       date_ltb e' d = true -> date_ltb d s = false.
Proof.
  intros V H H'.
  destruct (parse_last_quarter_covers today ref s e V H) as (Vs & _ & Cov).
  cbn [fst] in Vs.
  assert (Qs : quarter_index s = quarter_index ref - 1).
  { pose proof (valid_date_bounds _ V) as (_ & Hm & _).
    destruct (first_quarter_of_minyear ref) eqn:F.
    - rewrite (parse_last_quarter_minyear today ref V F) in H.
      discriminate.
    - rewrite (parse_last_quarter_value today ref V F) in H.
      injection H as <- _. now rewrite (quarter_index_ref ref Hm). }
  destruct (window_just_before today s s' e' Vs H') as (L & A).
  split; [|split; [exact L|]].
  - replace (quarter_index ref - 2) with (quarter_index s - 1) by lia.
    now apply parse_last_quarter_covers with (today := today).
  - intros d Vd L1. destruct (date_ltb d s) eqn:L2; [|reflexivity].
    exfalso.
    assert (L3 : date_leb d s = true)
      by (unfold date_leb; now rewrite L2).
    pose proof (A d Vd L1 L3) as Qd. rewrite Qs in Qd.
    apply (Cov d Vd) in Qd. unfold in_window in Qd. cbn [fst snd] in Qd.
    apply andb_true_iff in Qd as [Qd _].
    apply date_leb_le in Qd. apply date_ltb_lt in L2. lia.
Qed.

Lemma last_quarter_of_window_start_is_adjacent_witness :
  covers_quarter (mkdate 2023 10 1, mkdate 2023 12 31)
    (quarter_index (mkdate 2024 5 15) - 2)
  /\ date_ltb (mkdate 2023 12 31) (mkdate 2024 1 1) = true
  /\ forall d, valid_date d = true ->
       date_ltb (mkdate 2023 12 31) d = true ->
       date_ltb d (mkdate 2024 1 1) = false.
Proof.
  apply (last_quarter_of_window_start_is_adjacent
           (mkdate 2026 11 3) (mkdate 2024 5 15)
           (mkdate 2024 1 1) (mkdate 2024 3 31)); reflexivity.
Defined.

(** ** [route_question]: errors, shape, what it depends on *)

Lemma route_question_raises_iff today snapshot q
  user_ctx :
  valid_date today = true ->
  (forall e, route_question today snapshot q user_ctx = Raise e ->
             e = ValueError)
  /\ ((exists e, route_question today snapshot q user_ctx = Raise e)
      <-> (occurs "last quarter" (Str.lower q)
           \/ occurs "past quarter" (Str.lower q))
          /\ year today = 1 /\ month today <= 3).
Proof.
  intros V. rewrite <- !contains_occurs, <- orb_true_iff.
  fold (wants_last_quarter (Str.lower q)).
  rewrite <- first_quarter_of_minyear_iff.
  rewrite route_question_eq. unfold selected_rows.
  change (parse_last_quarter today None)
    with (parse_last_quarter today (Some today)).
  destruct (wants_last_quarter (Str.lower q)).
  - destruct (first_quarter_of_minyear today) eqn:F.
    + rewrite (parse_last_quarter_minyear today today V F). cbn [bind].
      split; [now intros e [= <-]|]. split; [tauto|eauto].
    + rewrite (parse_last_quarter_value today today V F). cbn [bind].
      split; [discriminate|].
      split; [intros (e & H); discriminate H|intros (_ & H); discriminate H].
  - cbn [bind]. split; [discriminate|].
    split; [intros (e & H); discriminate H|intros (H & _); discriminate H].
Qed.

(** X5: a request fails with the error of [load_data] exactly when the
    cache is empty and loading fails.  Answered from a frame with at
    least one row, it raises nothing but [ValueError], and raises it
    exactly when the question asks for the last or past quarter while
    the system date lies in January to March of year 1.  Answered from
    the frame without rows, it raises [AttributeError] for a question
    about the last or past quarter on any later date, and [TypeError]
    for a trend question without that phrase and without grouping. *)
Theorem request_fails_only_as_follows w cache req :
  valid_date (w_today w) = true ->
  (fst (ask w cache req) = LoadError <-> cache = None /\ w_load w = None)
  /\ (forall df,
        fst (get_df (w_load w) cache) = Some df -> df <> [] ->
        (forall e, fst (ask w cache req) = RouteError e -> e = ValueError)
        /\ ((exists e, fst (ask w cache req) = RouteError e)
            <-> (occurs "last quarter" (Str.lower (question req))
                 \/ occurs "past quarter" (Str.lower (question req)))
                /\ year (w_today w) = 1 /\ month (w_today w) <= 3))
  /\ (fst (get_df (w_load w) cache) = Some [] ->
      (occurs "last quarter" (Str.lower (question req))
       \/ occurs "past quarter" (Str.lower (question req)) ->
       ~ (year (w_today w) = 1 /\ month (w_today w) <= 3) ->
       fst (ask w cache req) = RouteError AttributeError)
      /\ (~ occurs "last quarter" (Str.lower (question req)) ->
          ~ occurs "past quarter" (Str.lower (question req)) ->
          ~ occurs "by fund type" (Str.lower (question req)) ->
          ~ occurs "by wholesaler" (Str.lower (question req)) ->
          ~ occurs "by advisor" (Str.lower (question req)) ->
          ~ occurs "by mandate" (Str.lower (question req)) ->
          occurs "trend" (Str.lower (question req))
          \/ occurs "over time" (Str.lower (question req))
          \/ occurs "by month" (Str.lower (question req)) ->
          fst (ask w cache req) = RouteError TypeError)).
Proof.
  intros V. unfold ask.
  destruct (get_df (w_load w) cache) as [[df|] cache'] eqn:G; cbn [fst].
  - split; [|split].
    + split.
      * destruct (route_question_loaded _ _ _ _); discriminate.
      * intros (-> & L). rewrite L in G. discriminate G.
    + intros df' [= <-] NE.
      rewrite (route_question_loaded_nonempty _ _ _ _ NE).
      destruct (route_question_raises_iff (w_today w) df (question req)
                  (user_context req) V) as (O & I).
      split.
      * intros e H.
        destruct (route_question (w_today w) df (question req)
                    (user_context req)) as [r|e'] eqn:R; [discriminate|].
        injection H as <-. now apply O.
      * rewrite <- I. split; intros (e & H); exists e.
        -- destruct (route_question (w_today w) df (question req)
                       (user_context req)); congruence.
        -- now rewrite H.
    + intros [= ->]. unfold route_question_loaded. split.
      * intros W N. rewrite <- !contains_occurs, <- orb_true_iff in W.
        fold (wants_last_quarter (Str.lower (question req))) in W.
        rewrite W.
        change (parse_last_quarter (w_today w) None)
          with (parse_last_quarter (w_today w) (Some (w_today w))).
        rewrite <- first_quarter_of_minyear_iff in N.
        apply not_true_is_false in N.
        now rewrite (parse_last_quarter_value _ _ V N).
      * intros L P G1 G2 G3 G4 T.
        rewrite <- !contains_not_occurs in L, P.
        unfold wants_last_quarter. rewrite L, P. cbn [orb].
        now rewrite (group_field_of_none _ G1 G2 G3 G4),
          (wants_trend_true _ T).
  - split; [|split].
    + split; [intros _|reflexivity].
      unfold get_df in G. destruct cache; [discriminate|].
      destruct (w_load w); [discriminate|]. auto.
    + discriminate.
    + discriminate.
Qed.

Lemma request_fails_only_as_follows_witness :
  let w := mkWorld (Some []) (mkdate 2024 5 15) in
  let req := mkAskRequest "Purchases over time" None in
  (fst (ask w None req) = LoadError
   <-> (None : Cache) = None /\ w_load w = None)
  /\ (forall df,
        fst (get_df (w_load w) None) = Some df -> df <> [] ->
        (forall e, fst (ask w None req) = RouteError e -> e = ValueError)
        /\ ((exists e, fst (ask w None req) = RouteError e)
            <-> (occurs "last quarter" (Str.lower (question req))
                 \/ occurs "past quarter" (Str.lower (question req)))
                /\ year (w_today w) = 1 /\ month (w_today w) <= 3))
  /\ (fst (get_df (w_load w) None) = Some [] ->
      (occurs "last quarter" (Str.lower (question req))
       \/ occurs "past quarter" (Str.lower (question req)) ->
       ~ (year (w_today w) = 1 /\ month (w_today w) <= 3) ->
       fst (ask w None req) = RouteError AttributeError)
      /\ (~ occurs "last quarter" (Str.lower (question req)) ->
          ~ occurs "past quarter" (Str.lower (question req)) ->
          ~ occurs "by fund type" (Str.lower (question req)) ->
          ~ occurs "by wholesaler" (Str.lower (question req)) ->
          ~ occurs "by advisor" (Str.lower (question req)) ->
          ~ occurs "by mandate" (Str.lower (question req)) ->
          occurs "trend" (Str.lower (question req))
          \/ occurs "over time" (Str.lower (question req))
          \/ occurs "by month" (Str.lower (question req)) ->
          fst (ask w None req) = RouteError TypeError)).
Proof.
  intros w req. apply (request_fails_only_as_follows w None req).
  reflexivity.
Defined.

(** X6: every response has a title and no table; it is either a
    chart without text, with labels and exactly one dataset, labelled
    with the metric, whose data is as long as the labels, or a text
    without labels and datasets. *)
Theorem route_question_response_shape today snapshot q user_ctx resp :
  route_question today snapshot q user_ctx = Ok resp ->
  table resp = None
  /\ title resp <> None
  /\ ((type resp = "chart" /\ text resp = None
       /\ exists lbls series,
            labels resp = Some lbls
            /\ datasets resp
               = Some [mkDataset (metric_name (metric_of (Str.lower q)))
                         series]
            /\ List.length lbls = List.length series)
      \/ (type resp = "text" /\ text resp <> None
          /\ labels resp = None /\ datasets resp = None)).
Proof.
  rewrite route_question_eq.
  destruct (selected_rows today snapshot (Str.lower q) user_ctx)
    as [df|e]; [|discriminate].
  cbn [bind]. intros [= <-].
  destruct (group_field_of (Str.lower q)) as [g|];
    [|destruct (wants_trend (Str.lower q))].
  - split; [reflexivity|]. split; [discriminate|]. left.
    split; [reflexivity|]. split; [reflexivity|].
    do 2 eexists. split; [reflexivity|]. split; [reflexivity|].
    now rewrite !length_map.
  - split; [reflexivity|]. split; [discriminate|]. left.
    split; [reflexivity|]. split; [reflexivity|].
    do 2 eexists. split; [reflexivity|]. split; [reflexivity|].
    now rewrite !length_map.
  - split; [reflexivity|]. split; [discriminate|]. right.
    split; [reflexivity|]. split; [discriminate|]. split; reflexivity.
Qed.

Lemma route_question_response_shape_witness :
  let resp := chart "Purchases by Advisor" [] Purchases [] in
  table resp = None
  /\ title resp <> None
  /\ ((type resp = "chart" /\ text resp = None
       /\ exists lbls series,
            labels resp = Some lbls
            /\ datasets resp
               = Some [mkDataset
                         (metric_name
                            (metric_of (Str.lower "purchases by advisor")))
                         series]
            /\ List.length lbls = List.length series)
      \/ (type resp = "text" /\ text resp <> None
          /\ labels resp = None /\ datasets resp = None)).
Proof.
  apply (route_question_response_shape (mkdate 2024 5 15) []
           "purchases by advisor" None).
  reflexivity.
Defined.

Lemma lower_char_idempotent c :
  Str.lower_char (Str.lower_char c) = Str.lower_char c.
Proof.
  destruct c as [[|] [|] [|] [|] [|] [|] [|] [|]]; reflexivity.
Qed.

Lemma lower_idempotent s : Str.lower (Str.lower s) = Str.lower s.
Proof.
  induction s as [|c s IH]; simpl; [reflexivity|].
  now rewrite lower_char_idempotent, IH.
Qed.

(** X7: the letter case of the question does not matter: two
    questions with the same lower-casing get the same result, and so do
    a question and its lower-casing. *)
Theorem route_question_ignores_case today snapshot q q' user_ctx :
  Str.lower q = Str.lower q' ->
  route_question today snapshot q user_ctx
  = route_question today snapshot q' user_ctx
  /\ route_question today snapshot (Str.lower q) user_ctx
     = route_question today snapshot q user_ctx.
Proof.
  intros E. rewrite !route_question_eq, lower_idempotent, E. auto.
Qed.

Lemma route_question_ignores_case_witness :
  route_question (mkdate 2024 5 15) []
    "REDEMPTIONS By Fund Type" None
  = route_question (mkdate 2024 5 15) []
      "redemptions by FUND TYPE" None
  /\ route_question (mkdate 2024 5 15) []
       (Str.lower "REDEMPTIONS By Fund Type") None
     = route_question (mkdate 2024 5 15) []
         "REDEMPTIONS By Fund Type" None.
Proof.
  apply route_question_ignores_case. reflexivity.
Defined.

Lemma route_question_by_rvp today snapshot q c1 c2 :
  rvp_of (Str.lower q) c1 = rvp_of (Str.lower q) c2 ->
  route_question today snapshot q c1 = route_question today snapshot q c2.
Proof.
  intros E. rewrite !route_question_eq.
  unfold selected_rows, title_of. now rewrite E.
Qed.

(** X8: of the context only the value under the key "rvp" is read:
    two contexts that agree on it (both without it, or both with the
    same value) get the same result. *)
Theorem route_question_reads_only_rvp_key today snapshot q c1 c2 :
  ctx_find c1 "rvp" = ctx_find c2 "rvp" ->
  route_question today snapshot q c1 = route_question today snapshot q c2.
Proof.
  intros E. apply route_question_by_rvp.
  rewrite !rvp_of_eq. unfold entity_filter_truthy. now rewrite E.
Qed.

Lemma route_question_reads_only_rvp_key_witness :
  route_question (mkdate 2024 5 15)
    [mkRow (mkdate 2024 1 10) 10 0 0 "W1" "A1" "M1" "Equity" "Alice"]
    "purchases"
    (Some [("department", PStr "marketing"); ("rvp", PStr "Alice")])
  = route_question (mkdate 2024 5 15)
      [mkRow (mkdate 2024 1 10) 10 0 0 "W1" "A1" "M1" "Equity" "Alice"]
      "purchases" (Some [("rvp", PStr "Alice"); ("team", PInt 7)]).
Proof.
  apply route_question_reads_only_rvp_key. reflexivity.
Defined.

(** X9: when the question itself mentions an RVP, the context changes
    nothing in the result. *)
Theorem route_question_mention_overrides_context today snapshot q w
  user_ctx :
  leftmost_rvp_mention (Str.lower q) w ->
  route_question today snapshot q user_ctx
  = route_question today snapshot q None.
Proof.
  intros L. apply route_question_by_rvp.
  apply search_rvp_leftmost in L. unfold rvp_of. now rewrite L.
Qed.

Lemma route_question_mention_overrides_context_witness :
  route_question (mkdate 2024 5 15)
    [mkRow (mkdate 2024 1 10) 10 0 0 "W1" "A1" "M1" "Equity" "Alice"]
    "assets for RVP bob" (Some [("rvp", PStr "Alice")])
  = route_question (mkdate 2024 5 15)
      [mkRow (mkdate 2024 1 10) 10 0 0 "W1" "A1" "M1" "Equity" "Alice"]
      "assets for RVP bob" None.
Proof.
  apply (route_question_mention_overrides_context _ _ _ "bob").
  apply search_rvp_leftmost. reflexivity.
Defined.

(** X11: the grouping is chosen by first match in the order "by fund
    type", "by wholesaler", "by advisor", "by mandate"; without any of
    the four there is no grouping (the test for "by mandate name" adds
    nothing). *)
Theorem grouping_first_match q :
  (occurs "by fund type" (Str.lower q) ->
   group_field_of (Str.lower q) = Some Fund_type)
  /\ (~ occurs "by fund type" (Str.lower q) ->
      occurs "by wholesaler" (Str.lower q) ->
      group_field_of (Str.lower q) = Some Wholesaler)
  /\ (~ occurs "by fund type" (Str.lower q) ->
      ~ occurs "by wholesaler" (Str.lower q) ->
      occurs "by advisor" (Str.lower q) ->
      group_field_of (Str.lower q) = Some Advisor)
  /\ (~ occurs "by fund type" (Str.lower q) ->
      ~ occurs "by wholesaler" (Str.lower q) ->
      ~ occurs "by advisor" (Str.lower q) ->
      occurs "by mandate" (Str.lower q) ->
      group_field_of (Str.lower q) = Some Mandate_name)
  /\ (~ occurs "by fund type" (Str.lower q) ->
      ~ occurs "by wholesaler" (Str.lower q) ->
      ~ occurs "by advisor" (Str.lower q) ->
      ~ occurs "by mandate" (Str.lower q) ->
      group_field_of (Str.lower q) = None).
Proof.
  split; [|split; [|split; [|split]]];
    try (exact (group_field_of_none (Str.lower q)));
    rewrite <- ?contains_not_occurs, <- ?contains_occurs;
    unfold group_field_of; intros;
    repeat match goal with
           | H : Str.contains _ _ = _ |- _ => rewrite H; clear H
           end; reflexivity.
Qed.

Lemma grouping_first_match_witness :
  group_field_of (Str.lower "by advisor, By Fund Type") = Some Fund_type
  /\ group_field_of (Str.lower "by mandate by wholesaler")
     = Some Wholesaler
  /\ group_field_of (Str.lower "by mandate name BY ADVISOR") = Some Advisor
  /\ group_field_of (Str.lower "assets by Mandate") = Some Mandate_name
  /\ group_field_of (Str.lower "assets by month") = None.
Proof.
  split; [|split; [|split; [|split]]].
  - apply (proj1 (grouping_first_match _)).
    apply contains_occurs. reflexivity.
  - apply (proj1 (proj2 (grouping_first_match _)));
      [apply contains_not_occurs|apply contains_occurs]; reflexivity.
  - apply (proj1 (proj2 (proj2 (grouping_first_match _))));
      [apply contains_not_occurs|apply contains_not_occurs
      |apply contains_occurs]; reflexivity.
  - apply (proj1 (proj2 (proj2 (proj2 (grouping_first_match _)))));
      [apply contains_not_occurs|apply contains_not_occurs
      |apply contains_not_occurs|apply contains_occurs]; reflexivity.
  - apply (proj2 (proj2 (proj2 (proj2 (grouping_first_match _)))));
      apply contains_not_occurs; reflexivity.
Defined.

(** ** The entity mention and the rows it keeps *)

Lemma all_chars_app p a b :
  all_chars p (a ++ b) = all_chars p a && all_chars p b.
Proof.
  induction a as [|c a IH]; simpl; [reflexivity|].
  now rewrite IH, andb_assoc.
Qed.

Lemma lower_char_not_upper c :
  Str.is_ascii_upper (Str.lower_char c) = false.
Proof.
  destruct c as [[|] [|] [|] [|] [|] [|] [|] [|]]; reflexivity.
Qed.

Lemma lower_no_upper s :
  all_chars (fun c => negb (Str.is_ascii_upper c)) (Str.lower s) = true.
Proof.
  induction s as [|c s IH]; simpl; [reflexivity|].
  now rewrite lower_char_not_upper, IH.
Qed.

Lemma lower_letter_fixed c :
  Str.is_ascii_alpha c = true -> Str.is_ascii_upper c = false ->
  Str.lower_char c = c /\ Str.lower_char (Str.upper_char c) = c.
Proof.
  destruct c as [[|] [|] [|] [|] [|] [|] [|] [|]];
    vm_compute; intros; try discriminate; split; reflexivity.
Qed.

Lemma lower_title_from b w :
  all_chars Str.is_ascii_alpha w = true ->
  all_chars (fun c => negb (Str.is_ascii_upper c)) w = true ->
  Str.lower (Str.title_from b w) = w.
Proof.
  revert b. induction w as [|c w IH]; intros b A U; [reflexivity|].
  simpl in A, U. apply andb_true_iff in A as [Ac A].
  apply andb_true_iff in U as [Uc U]. apply negb_true_iff in Uc.
  destruct (lower_letter_fixed c Ac Uc) as (E1 & E2).
  simpl. rewrite (IH _ A U). destruct b.
  - now rewrite lower_char_idempotent, E1.
  - now rewrite E2.
Qed.

Lemma mention_word_lower q w :
  leftmost_rvp_mention (Str.lower q) w -> Str.lower (Str.title w) = w.
Proof.
  intros (a & b & E & (ws & rest & -> & _ & _ & _ & A & _) & _).
  apply lower_title_from; [exact A|].
  pose proof (lower_no_upper q) as U. rewrite E in U.
  rewrite !all_chars_app in U.
  repeat (apply andb_true_iff in U; destruct U as [? U]); assumption.
Qed.

(** X10: the word captured from the question is title-cased for the
    title, and lower-casing it for the comparison gives the captured
    word back; so the rows kept are exactly those whose [rvp],
    lower-cased, is the captured word. *)
Theorem mention_keeps_rows_of_captured_word snapshot q w user_ctx :
  leftmost_rvp_mention (Str.lower q) w ->
  rvp_of (Str.lower q) user_ctx = Some (Str.title w)
  /\ Str.lower (Str.title w) = w
  /\ filter_rvp (rvp_of (Str.lower q) user_ctx) snapshot
     = filter (fun r => String.eqb (Str.lower (rvp r)) w) snapshot.
Proof.
  intros L. pose proof (mention_word_lower q w L) as E.
  assert (R : rvp_of (Str.lower q) user_ctx = Some (Str.title w)).
  { apply search_rvp_leftmost in L. unfold rvp_of. now rewrite L. }
  split; [exact R|]. split; [exact E|].
  unfold filter_rvp. rewrite R, (rvp_of_nonempty _ _ _ R).
  unfold rvp_lower. now rewrite E.
Qed.

Lemma mention_keeps_rows_of_captured_word_witness :
  rvp_of (Str.lower "Assets for RVP  Alice") None = Some (Str.title "alice")
  /\ Str.lower (Str.title "alice") = "alice"
  /\ filter_rvp (rvp_of (Str.lower "Assets for RVP  Alice") None)
       [mkRow (mkdate 2024 1 10) 10 0 0 "W1" "A1" "M1" "Equity" "ALICE";
        mkRow (mkdate 2024 2 10) 20 0 0 "W2" "A1" "M1" "Bond" "Bob"]
     = filter (fun r => String.eqb (Str.lower (rvp r)) "alice")
         [mkRow (mkdate 2024 1 10) 10 0 0 "W1" "A1" "M1" "Equity" "ALICE";
          mkRow (mkdate 2024 2 10) 20 0 0 "W2" "A1" "M1" "Bond" "Bob"].
Proof.
  apply mention_keeps_rows_of_captured_word.
  apply search_rvp_leftmost. reflexivity.
Defined.



(** ** The order of the rows does not matter *)

Lemma filter_perm {A} (f : A -> bool) l l' :
  Permutation l l' -> Permutation (filter f l) (filter f l').
Proof.
  induction 1 as [|x l l' P IH|x y l|l l' l'' P1 IH1 P2 IH2]; simpl.
  - constructor.
  - destruct (f x); [now constructor|exact IH].
  - destruct (f x), (f y); try reflexivity. apply perm_swap.
  - now transitivity (filter f l').
Qed.

Lemma round2_comp x y : (x == y)%Q -> Num.round2 x = Num.round2 y.
Proof.
  intros E. unfold Num.round2. now rewrite (cents_comp _ _ E).
Qed.

Lemma sum_where_perm val p df df' :
  Permutation df df' ->
  (Frame.sum_where val p df == Frame.sum_where val p df')%Q.
Proof.
  intros P. unfold Frame.sum_where.
  apply sum_perm, Permutation_map, filter_perm, P.
Qed.

Lemma selected_rows_perm today s s' q_low user_ctx :
  Permutation s s' ->
  match selected_rows today s q_low user_ctx,
        selected_rows today s' q_low user_ctx with
  | Ok df, Ok df' => Permutation df df'
  | Raise e, Raise e' => e = e'
  | _, _ => False
  end.
Proof.
  intros P. unfold selected_rows.
  assert (P' : Permutation (filter_rvp (rvp_of q_low user_ctx) s)
                 (filter_rvp (rvp_of q_low user_ctx) s')).
  { unfold filter_rvp. destruct (rvp_set _); [now apply filter_perm|exact P]. }
  destruct (wants_last_quarter q_low); [|exact P'].
  destruct (parse_last_quarter today None); cbn [bind]; [|reflexivity].
  now apply filter_perm.
Qed.

Lemma scalar_response_perm metric ttl df df' :
  Permutation df df' ->
  scalar_response metric ttl df = scalar_response metric ttl df'.
Proof.
  intros P. unfold scalar_response.
  now rewrite (format_2f_comp _ _
                 (sum_perm _ _ (Permutation_map (metric_col metric) P))).
Qed.

Lemma fold_min_perm i rest j rest' :
  Permutation (i :: rest) (j :: rest') ->
  fold_right Z.min i rest = fold_right Z.min j rest'.
Proof.
  intros P.
  destruct (fold_min_spec i rest) as (I & L).
  destruct (fold_min_spec j rest') as (I' & L').
  apply Z.le_antisymm.
  - apply L. eapply Permutation_in; [symmetry; exact P|exact I'].
  - apply L'. eapply Permutation_in; [exact P|exact I].
Qed.

Lemma fold_max_perm i rest j rest' :
  Permutation (i :: rest) (j :: rest') ->
  fold_right Z.max i rest = fold_right Z.max j rest'.
Proof.
  intros P.
  destruct (fold_max_spec i rest) as (I & L).
  destruct (fold_max_spec j rest') as (I' & L').
  apply Z.le_antisymm.
  - apply L'. eapply Permutation_in; [exact P|exact I].
  - apply L. eapply Permutation_in; [symmetry; exact P|exact I'].
Qed.

Lemma monthly_response_perm metric ttl df df' :
  Permutation df df' ->
  monthly_response metric ttl df = monthly_response metric ttl df'.
Proof.
  intros P. unfold monthly_response, Frame.resample_month_sum.
  pose proof (Permutation_map
                (fun r => Frame.month_index (r_date r)) P) as PI.
  destruct (map (fun r => Frame.month_index (r_date r)) df)
    as [|i rest] eqn:E,
    (map (fun r => Frame.month_index (r_date r)) df')
    as [|j rest'] eqn:E'.
  - reflexivity.
  - apply Permutation_nil in PI. discriminate.
  - symmetry in PI. apply Permutation_nil in PI. discriminate.
  - rewrite (fold_min_perm _ _ _ _ PI), (fold_max_perm _ _ _ _ PI).
    rewrite !map_map. cbn [fst snd].
    rewrite (map_ext _
               (fun m =>
                  Num.round2
                    (Frame.sum_where (metric_col metric)
                       (fun r => Frame.month_index (r_date r) =? m) df')));
      [reflexivity|].
    intros m. apply round2_comp, sum_where_perm, P.
Qed.

(** X12: for a question without a grouping phrase, and whole amounts
    on which the column arithmetic is exact, the result (total or
    monthly chart) is the same for any reordering of the rows of the
    frame. *)
Theorem ungrouped_answer_ignores_row_order today s s' q user_ctx :
  Permutation s s' ->
  exact_amounts (metric_col (metric_of (Str.lower q))) s ->
  ~ occurs "by fund type" (Str.lower q) ->
  ~ occurs "by wholesaler" (Str.lower q) ->
  ~ occurs "by advisor" (Str.lower q) ->
  ~ occurs "by mandate" (Str.lower q) ->
  route_question_loaded today s q user_ctx
  = route_question_loaded today s' q user_ctx.
Proof.
  intros P _ G1 G2 G3 G4.
  destruct s as [|r s].
  { apply Permutation_nil in P. now subst. }
  assert (NE : s' <> [])
    by (intros ->; apply Permutation_sym, Permutation_nil in P;
        discriminate).
  rewrite (route_question_loaded_nonempty _ s' _ _ NE).
  rewrite route_question_loaded_nonempty by discriminate.
  rewrite !route_question_eq.
  rewrite (group_field_of_none _ G1 G2 G3 G4).
  pose proof (selected_rows_perm today (r :: s) s' (Str.lower q) user_ctx P)
    as S.
  destruct (selected_rows today (r :: s) (Str.lower q) user_ctx) as [df|e],
    (selected_rows today s' (Str.lower q) user_ctx) as [df'|e'];
    try contradiction; cbn [bind]; [|now subst].
  destruct (wants_trend (Str.lower q)).
  - now rewrite (monthly_response_perm _ _ _ _ S).
  - now rewrite (scalar_response_perm _ _ _ _ S).
Qed.

Lemma ungrouped_answer_ignores_row_order_witness :
  route_question_loaded (mkdate 2024 5 15)
    [mkRow (mkdate 2024 1 10) 1200 0 0 "W1" "A1" "M1" "Equity" "Alice";
     mkRow (mkdate 2024 3 10) 345 0 0 "W2" "A1" "M1" "Bond" "Bob"]
    "purchases over time" None
  = route_question_loaded (mkdate 2024 5 15)
      [mkRow (mkdate 2024 3 10) 345 0 0 "W2" "A1" "M1" "Bond" "Bob";
       mkRow (mkdate 2024 1 10) 1200 0 0 "W1" "A1" "M1" "Equity" "Alice"]
      "purchases over time" None.
Proof.
  apply ungrouped_answer_ignores_row_order.
  - apply perm_swap.
  - split.
    + intros r [<-|[<-|[]]].
      * exists 1200. reflexivity.
      * exists 345. reflexivity.
    + reflexivity.
  - apply contains_not_occurs. reflexivity.
  - apply contains_not_occurs. reflexivity.
  - apply contains_not_occurs. reflexivity.
  - apply contains_not_occurs. reflexivity.
Defined.

Lemma breakdown_points g metric ttl df :
  Permutation
    (chart_points (breakdown_response g metric ttl df))
    (map (fun k => (k, Num.round2 (group_total g metric df k)))
       (Frame.group_keys (dimension_col g) df)).
Proof.
  unfold chart_points, breakdown_response, chart. cbn [labels datasets data].
  set (agg := Frame.sort_values_desc _).
  assert (C : combine (map fst agg)
                (map (fun kv => Num.round2 (snd kv)) agg)
              = map (fun kv => (fst kv, Num.round2 (snd kv))) agg).
  { clearbody agg. induction agg as [|x l IH]; simpl; congruence. }
  rewrite C. unfold agg.
  rewrite (Permutation_map _ (sort_values_desc_perm _)).
  unfold Frame.groupby_sum. rewrite map_map. reflexivity.
Qed.

Lemma group_keys_perm col df df' :
  Permutation df df' ->
  Permutation (Frame.group_keys col df) (Frame.group_keys col df').
Proof.
  intros P. apply NoDup_Permutation; try apply group_keys_NoDup.
  intros k. rewrite !group_keys_In. split; intros (r & I & E);
    exists r; split; try assumption.
  - eapply Permutation_in; [exact P|exact I].
  - eapply Permutation_in; [symmetry; exact P|exact I].
Qed.

(** X13: for a question with a grouping, and whole amounts on which
    the column arithmetic is exact, reordering the rows of the frame
    leaves the kind of response, the title and the points of the chart
    (each label with its value) unchanged, up to the order of the
    points. *)
Theorem breakdown_points_ignore_row_order today s s' q user_ctx g resp :
  Permutation s s' ->
  exact_amounts (metric_col (metric_of (Str.lower q))) s ->
  group_field_of (Str.lower q) = Some g ->
  route_question_loaded today s q user_ctx = Ok resp ->
  exists resp',
    route_question_loaded today s' q user_ctx = Ok resp'
    /\ type resp' = type resp /\ title resp' = title resp
    /\ Permutation (chart_points resp) (chart_points resp').
Proof.
  intros P _ G.
  destruct s as [|r s].
  { apply Permutation_nil in P. subst. intros H. exists resp. auto. }
  assert (NE : s' <> [])
    by (intros ->; apply Permutation_sym, Permutation_nil in P;
        discriminate).
  rewrite (route_question_loaded_nonempty _ s' _ _ NE).
  rewrite route_question_loaded_nonempty by discriminate.
  rewrite !route_question_eq, G.
  pose proof (selected_rows_perm today (r :: s) s' (Str.lower q) user_ctx P)
    as S.
  destruct (selected_rows today (r :: s) (Str.lower q) user_ctx) as [df|e],
    (selected_rows today s' (Str.lower q) user_ctx) as [df'|e'];
    try contradiction; cbn [bind]; [|discriminate].
  intros [= <-]. eexists. split; [reflexivity|].
  split; [reflexivity|]. split; [reflexivity|].
  rewrite !breakdown_points.
  rewrite (Permutation_map _ (group_keys_perm _ _ _ S)).
  erewrite map_ext; [reflexivity|].
  intros k. cbn beta. f_equal.
  apply round2_comp, sum_where_perm, S.
Qed.

Lemma breakdown_points_ignore_row_order_witness :
  exists resp',
    route_question_loaded (mkdate 2024 5 15)
      [mkRow (mkdate 2024 3 10) 20 0 0 "W2" "A1" "M1" "Bond" "Bob";
       mkRow (mkdate 2024 1 10) 10 0 0 "W1" "A1" "M1" "Equity" "Alice"]
      "purchases by wholesaler" None = Ok resp'
    /\ type resp'
       = type (chart "Purchases by Wholesaler" ["W2"; "W1"] Purchases
                 [20; 10]%Q)
    /\ title resp'
       = title (chart "Purchases by Wholesaler" ["W2"; "W1"] Purchases
                  [20; 10]%Q)
    /\ Permutation
         (chart_points
            (chart "Purchases by Wholesaler" ["W2"; "W1"] Purchases
               [20; 10]%Q))
         (chart_points resp').
Proof.
  apply (breakdown_points_ignore_row_order (mkdate 2024 5 15)
           [mkRow (mkdate 2024 1 10) 10 0 0 "W1" "A1" "M1" "Equity" "Alice";
            mkRow (mkdate 2024 3 10) 20 0 0 "W2" "A1" "M1" "Bond" "Bob"]
           _ "purchases by wholesaler" None Wholesaler).
  - apply perm_swap.
  - split.
    + intros r [<-|[<-|[]]].
      * exists 10. reflexivity.
      * exists 20. reflexivity.
    + reflexivity.
  - reflexivity.
  - reflexivity.
Defined.

(** ** The series and the total *)

Lemma sum_indicator_Z_absent c v ks :
  ~ In c ks ->
  (Num.sum (map (fun k => if c =? k then v else 0) ks) == 0)%Q.
Proof.
  induction ks as [|k ks IH]; intros N; simpl; [reflexivity|].
  destruct (Z.eqb_spec c k) as [->|_].
  - elim N. now left.
  - rewrite IH; [ring|]. intros H. apply N. now right.
Qed.

Lemma sum_indicator_Z c v ks :
  NoDup ks -> In c ks ->
  (Num.sum (map (fun k => if c =? k then v else 0) ks) == v)%Q.
Proof.
  induction 1 as [|k ks N ND IH]; intros I; [destruct I|]. simpl.
  destruct (Z.eqb_spec c k) as [->|N'].
  - rewrite sum_indicator_Z_absent by assumption. ring.
  - destruct I as [->|I]; [congruence|]. rewrite IH by assumption. ring.
Qed.

Lemma month_totals_add_up val ks df :
  NoDup ks ->
  (forall r, In r df -> In (Frame.month_index (r_date r)) ks) ->
  (Num.sum
     (map (fun m =>
             Frame.sum_where val
               (fun r => Frame.month_index (r_date r) =? m) df) ks)
   == Num.sum (map val df))%Q.
Proof.
  intros ND. induction df as [|r df IH]; intros H.
  - clear ND H. induction ks as [|k ks IHk]; [reflexivity|].
    cbn [map Num.sum fold_right] in *. rewrite IHk.
    unfold Frame.sum_where. simpl. ring.
  - rewrite (sum_map_ext _
               (fun m => (if Frame.month_index (r_date r) =? m
                          then val r else 0)
                         + Frame.sum_where val
                             (fun r => Frame.month_index (r_date r) =? m)
                             df)%Q)
      by (intros; apply sum_where_cons).
    rewrite sum_map_plus, sum_indicator_Z, IH.
    + reflexivity.
    + intros r' Hr'. apply H. now right.
    + exact ND.
    + apply H. now left.
Qed.

Lemma sorted_lt_NoDup l : StronglySorted Z.lt l -> NoDup l.
Proof.
  induction 1 as [|x l S IH F]; constructor; [|exact IH].
  intros I. rewrite Forall_forall in F. specialize (F x I). lia.
Qed.

Lemma resample_adds_up val df :
  (Num.sum (map snd (Frame.resample_month_sum val df))
   == Num.sum (map val df))%Q.
Proof.
  rewrite resample_values.
  destruct (resample_months val df) as (S & B).
  apply month_totals_add_up.
  - now apply sorted_lt_NoDup.
  - intros r Hr. apply B. exists r, r. repeat split; try assumption; lia.
Qed.

Lemma resample_whole_cents val df :
  (forall r, In r df -> whole_cents (val r)) ->
  Forall whole_cents (map snd (Frame.resample_month_sum val df)).
Proof.
  intros W. rewrite resample_values.
  apply Forall_forall. intros x Hx. apply in_map_iff in Hx.
  destruct Hx as (k & <- & _). apply whole_cents_sum.
  apply Forall_forall. intros y Hy. apply in_map_iff in Hy.
  destruct Hy as (r & <- & Hr). apply filter_In in Hr. now apply W.
Qed.

(** X14: on a dataset with at least one row and for whole amounts on
    which the column arithmetic is exact, the series of every chart,
    grouped or monthly, adds up to the total of the metric over the
    selected rows. *)
Theorem chart_series_adds_up_to_total today snapshot q user_ctx df resp :
  snapshot <> [] ->
  selected_rows today snapshot (Str.lower q) user_ctx = Ok df ->
  exact_amounts (metric_col (metric_of (Str.lower q))) df ->
  route_question_loaded today snapshot q user_ctx = Ok resp ->
  type resp = "chart" ->
  exists series,
    datasets resp
    = Some [mkDataset (metric_name (metric_of (Str.lower q))) series]
    /\ (Num.sum series
        == Num.sum (map (metric_col (metric_of (Str.lower q))) df))%Q.
Proof.
  intros NE D (W & _).
  rewrite (route_question_loaded_nonempty _ _ _ _ NE).
  rewrite route_question_eq, D. cbn [bind]. intros [= <-].
  set (metric := metric_of (Str.lower q)) in *.
  assert (W' : forall r, In r df -> whole_cents (metric_col metric r))
    by (intros r Hr; apply whole_amount_cents, W, Hr).
  destruct (group_field_of (Str.lower q)) as [g|];
    [|destruct (wants_trend (Str.lower q)); [|discriminate]]; intros _.
  - destruct (breakdown_series_sum g metric
                (title_of (Str.lower q) user_ctx) df W')
      as (series & Hs & E).
    exists series. split; assumption.
  - eexists. split; [reflexivity|].
    rewrite <- (map_map snd Num.round2).
    rewrite sum_round2_whole by now apply resample_whole_cents.
    apply resample_adds_up.
Qed.

Lemma chart_series_adds_up_to_total_witness :
  let df :=
    [mkRow (mkdate 2024 1 10) 1200 0 0 "W1" "A1" "M1" "Equity" "Al";
     mkRow (mkdate 2024 3 10) 345 0 0 "W2" "A1" "M1" "Bond" "Bob"] in
  let resp :=
    chart "Purchases (Monthly)" ["2024-01"; "2024-02"; "2024-03"]
      Purchases [1200; 0; 345]%Q in
  exists series,
    datasets resp
    = Some [mkDataset
              (metric_name (metric_of (Str.lower "purchases by month")))
              series]
    /\ (Num.sum series
        == Num.sum
             (map (metric_col (metric_of (Str.lower "purchases by month")))
                df))%Q.
Proof.
  intros df resp.
  apply (chart_series_adds_up_to_total (mkdate 2024 5 15) df
           "purchases by month" None df resp).
  - discriminate.
  - reflexivity.
  - split.
    + intros r [<-|[<-|[]]].
      * exists 1200. reflexivity.
      * exists 345. reflexivity.
    + reflexivity.
  - reflexivity.
  - reflexivity.
Defined.

(** ** The cached frame *)

Lemma serve_warm df reqs :
  serve (Some df) reqs = (map (answer_from df) reqs, Some df).
Proof.
  induction reqs as [|[w req] reqs IH]; [reflexivity|].
  cbn [serve]. unfold ask. cbn [get_df]. rewrite IH. reflexivity.
Qed.

(** X15: once the frame is cached, every request is answered from
    it: the cache stays as it is whatever the router returns or raises,
    and what [load_data] would return by then plays no part. *)
Theorem serve_answers_from_the_cached_frame df reqs :
  serve (Some df) reqs = (map (answer_from df) reqs, Some df)
  /\ forall w w' req,
       w_today w = w_today w' ->
       ask w (Some df) req = ask w' (Some df) req.
Proof.
  split; [apply serve_warm|].
  intros w w' req E. unfold ask. cbn [get_df]. now rewrite E.
Qed.

(** X16: a process starting with an empty cache fails each request
    with the error of [load_data] as long as loading fails, caches the
    first frame it loads, and answers that request and all later ones
    from this frame. *)
Theorem serve_loads_once reqs :
  (Forall (fun wr => w_load (fst wr) = None) reqs
   /\ serve None reqs = (map (fun _ => LoadError) reqs, None))
  \/ exists pre w req post df,
       reqs = (pre ++ (w, req) :: post)%list
       /\ Forall (fun wr => w_load (fst wr) = None) pre
       /\ w_load w = Some df
       /\ serve None reqs
          = ((map (fun _ => LoadError) pre
              ++ map (answer_from df) ((w, req) :: post))%list,
             Some df).
Proof.
  induction reqs as [|[w req] reqs IH].
  - left. split; [constructor|reflexivity].
  - destruct (w_load w) as [df|] eqn:L.
    + right. exists [], w, req, reqs, df.
      split; [reflexivity|]. split; [constructor|]. split; [exact L|].
      cbn [serve]. unfold ask. rewrite L. cbn [get_df].
      rewrite serve_warm. reflexivity.
    + destruct IH as [(F & S)|(pre & w' & req' & post & df & E & F & L' & S)].
      * left. split; [constructor; assumption|].
        cbn [serve]. unfold ask. rewrite L. cbn [get_df]. now rewrite S.
      * right. exists ((w, req) :: pre), w', req', post, df.
        split; [now rewrite E|]. split; [constructor; assumption|].
        split; [exact L'|].
        cbn [serve]. unfold ask. rewrite L. cbn [get_df]. now rewrite S.
Qed.

(** X17: the search for "rvp", white space and letters finds the
    token of the leftmost greedy match, finds nothing exactly when no
    suffix of the text begins with such a match, and the token it finds
    is unique. *)
Theorem search_rvp_finds_leftmost_greedy_mention s :
  (forall w, Str.search_rvp s = Some w <-> leftmost_rvp_mention s w)
  /\ (Str.search_rvp s = None
      <-> forall a b w, s = a ++ b -> ~ rvp_mention b w)
  /\ (forall w w',
        leftmost_rvp_mention s w -> leftmost_rvp_mention s w' -> w = w').
Proof.
  split; [intros w; apply search_rvp_leftmost|].
  split; [apply search_rvp_none|].
  intros w w' L L'. apply search_rvp_leftmost in L, L'. congruence.
Qed.

Lemma serve_answers_from_the_cached_frame_witness :
  serve
    (Some [mkRow (mkdate 2024 1 10) 10 0 0 "W1" "A1" "M1" "Equity" "Alice"])
    [(mkWorld None (mkdate 2024 5 15), mkAskRequest "purchases" None);
     (mkWorld (Some []) (mkdate 2024 5 16), mkAskRequest "assets" None)]
  = (map
       (answer_from
          [mkRow (mkdate 2024 1 10) 10 0 0 "W1" "A1" "M1" "Equity" "Alice"])
       [(mkWorld None (mkdate 2024 5 15), mkAskRequest "purchases" None);
        (mkWorld (Some []) (mkdate 2024 5 16), mkAskRequest "assets" None)],
     Some [mkRow (mkdate 2024 1 10) 10 0 0 "W1" "A1" "M1" "Equity" "Alice"])
  /\ ask (mkWorld None (mkdate 2024 5 15))
       (Some [mkRow (mkdate 2024 1 10) 10 0 0 "W1" "A1" "M1" "Equity" "Alice"])
       (mkAskRequest "purchases" None)
     = ask (mkWorld (Some []) (mkdate 2024 5 15))
         (Some [mkRow (mkdate 2024 1 10) 10 0 0 "W1" "A1" "M1" "Equity"
                  "Alice"])
         (mkAskRequest "purchases" None).
Proof.
  split.
  - apply (proj1 (serve_answers_from_the_cached_frame _ _)).
  - apply (proj2 (serve_answers_from_the_cached_frame _ [])). reflexivity.
Defined.

Lemma search_rvp_finds_leftmost_greedy_mention_witness :
  Str.search_rvp "assets for rvp  bob and rvp alice" = Some "bob"
  /\ Str.search_rvp "rvp: bob, rvp2 alice, rvp" = None.
Proof.
  split.
  - apply (proj1 (search_rvp_finds_leftmost_greedy_mention _)).
    apply search_rvp_leftmost. reflexivity.
  - apply (proj1 (proj2 (search_rvp_finds_leftmost_greedy_mention _))).
    apply search_rvp_none. reflexivity.
Defined.

(** ** The date *)

(** X20: the system date matters only through the last-quarter
    window: without the phrase the result is the same on every date,
    and with it the result is the same on any two dates of one calendar
    quarter. *)
Theorem route_question_date_matters_by_quarter today today' snapshot q
  user_ctx :
  (~ occurs "last quarter" (Str.lower q) ->
   ~ occurs "past quarter" (Str.lower q) ->
   route_question today snapshot q user_ctx
   = route_question today' snapshot q user_ctx)
  /\ (year today = year today' ->
      (month today - 1) / 3 = (month today' - 1) / 3 ->
      route_question today snapshot q user_ctx
      = route_question today' snapshot q user_ctx).
Proof.
  rewrite !route_question_eq. unfold selected_rows. split.
  - rewrite <- !contains_not_occurs. intros L P.
    unfold wants_last_quarter. now rewrite L, P.
  - intros Y Q.
    change (parse_last_quarter today None)
      with (parse_last_quarter today (Some today)).
    change (parse_last_quarter today' None)
      with (parse_last_quarter today' (Some today')).
    now rewrite (parse_last_quarter_by_quarter today today' today today' Y Q).
Qed.

Lemma route_question_date_matters_by_quarter_witness :
  route_question (mkdate 2024 5 15) [] "assets by advisor" None
  = route_question (mkdate 1999 12 31) [] "assets by advisor" None
  /\ route_question (mkdate 2024 4 1)
       [mkRow (mkdate 2024 1 10) 10 0 0 "W1" "A1" "M1" "Equity" "Alice"]
       "purchases last quarter" None
     = route_question (mkdate 2024 6 30)
         [mkRow (mkdate 2024 1 10) 10 0 0 "W1" "A1" "M1" "Equity" "Alice"]
         "purchases last quarter" None.
Proof.
  split.
  - apply (proj1 (route_question_date_matters_by_quarter _ _ _ _ _));
      apply contains_not_occurs; reflexivity.
  - apply (proj2 (route_question_date_matters_by_quarter _ _ _ _ _));
      reflexivity.
Defined.
